(** * Request pipeline assembly and batch dispatch of the asynchronous
      storage client

    A shallow embedding of
    [azure/storage/filedatalake/_shared/base_client_async.py]:
    the mixin [AsyncStorageAccountHostsMixin] ([__enter__],
    [_create_pipeline], [_batch_send]) and the class
    [AsyncTransportWrapper].

    Python values are an inductive type, keyword arguments a finite map
    from names to values, exceptions an inductive type carried by a
    result type, and the attributes of [self] a record threaded through
    a state-and-error monad. *)

From Stdlib Require Import ZArith String List DecimalString Lia.
From stdpp Require Import base option gmap strings list.

Local Open Scope string_scope.
Local Open Scope Z_scope.

(** ** Python values *)

(** An instance of a user-level class.  [py_mro] names the classes the
    object is an instance of (what [isinstance] consults), [py_attrs]
    the attribute names it answers to, methods included (what [hasattr]
    and attribute access consult) and [py_repr] is its [repr], which
    [str] and the f-string conversion fall back on.  Instances define
    neither [__bool__] nor [__len__]: they are truthy, as Python objects
    are by default.  An instance of [list], or of a subclass of it that
    keeps the operators of [list], is a [VList], not a [VObject]; an
    object of any class that defines [__radd__] is a [VObject] with that
    name among its attributes. *)
Record PyObject := {
  py_mro : list string;
  py_attrs : list string;
  py_repr : string
}.

Inductive value :=
| VNone
| VBool (b : bool)
| VInt (n : Z)
| VStr (s : string)
| VList (l : list PyObject)
| VObject (o : PyObject).

(** Truth value testing, as [if v:], [not v] and [v or w] perform it. *)
Definition truthy (v : value) : bool :=
  match v with
  | VNone => false
  | VBool b => b
  | VInt n => negb (n =? 0)
  | VStr s => negb (String.eqb s "")
  | VList l => match l with [] => false | _ :: _ => true end
  | VObject _ => true
  end.

Fixpoint join (sep : string) (l : list string) : string :=
  match l with
  | [] => ""
  | [s] => s
  | s :: rest => s +:+ sep +:+ join sep rest
  end.

(** [str(v)], which is also what a replacement field [{v}] of an
    f-string inserts. *)
Definition py_str (v : value) : string :=
  match v with
  | VNone => "None"
  | VBool true => "True"
  | VBool false => "False"
  | VInt n => NilZero.string_of_int (Z.to_int n)
  | VStr s => s
  | VList l => "[" +:+ join ", " (py_repr <$> l) +:+ "]"
  | VObject o => py_repr o
  end.

(** [hasattr(v, name)] and [isinstance(v, cls)] for the names this module
    asks about ([get_token], [SharedKeyCredentialPolicy],
    [AzureSasCredential]): [None], booleans, integers, strings and lists
    have no such attribute and are instances of no such class. *)
Definition hasattr (v : value) (name : string) : bool :=
  match v with
  | VObject o => bool_decide (name ∈ py_attrs o)
  | _ => false
  end.

Definition isinstance (v : value) (cls : string) : bool :=
  match v with
  | VObject o => bool_decide (cls ∈ py_mro o)
  | _ => false
  end.

Definition is_not_None (v : value) : bool :=
  match v with
  | VNone => false
  | _ => true
  end.

(** ** Keyword arguments *)

(** [**kwargs] is a dict from names to values. *)
Abbreviation kwargs := (gmap string value).

(** [kwargs.get(k)]: [None] when the key is absent. *)
Definition kwargs_get (k : string) (kw : kwargs) : value :=
  default VNone (kw !! k).

(** [kwargs.pop(k, d)]: the value (or [d]) and the dict without the key. *)
Definition kwargs_pop (k : string) (d : value) (kw : kwargs) : value * kwargs :=
  (default d (kw !! k), delete k kw).

(** [kwargs.setdefault(k, d)]: insert only when the key is absent. *)
Definition kwargs_setdefault (k : string) (d : value) (kw : kwargs) : kwargs :=
  match kw !! k with
  | Some _ => kw
  | None => <[k := d]> kw
  end.

(** ** HTTP messages *)

Record HttpResponse := {
  status_code : Z;
  headers : list (string * string);
  body : string
}.

(** A sub-request of a batch: method, URL, headers and body. *)
Record SubRequest := {
  sub_method : string;
  sub_url : string;
  sub_headers : list (string * string);
  sub_body : string
}.

(** ** Exceptions and results *)

(** The exceptions this module raises itself ([TypeError], [ImportError],
    [HttpResponseError], [PartialBatchErrorException]), those of the
    interpreter and of the functions it calls ([KeyError],
    [AttributeError], [ValueError]; the wording of a message of the
    interpreter is that of one version of it) and the typed failure its
    error decoder produces. *)
Inductive exception :=
| TypeError (msg : string)
| ImportError (msg : string)
| KeyError (key : string)
| AttributeError (msg : string)
| ValueError (msg : string)
| HttpResponseError (response : HttpResponse)
| PartialBatchErrorException (message : string) (response : HttpResponse)
    (parts : list HttpResponse)
| StorageServiceError (response : HttpResponse) (error_code : option string)
    (message : string).

Inductive result (A : Type) :=
| Return (a : A)
| Raise (e : exception).
Arguments Return {A} a.
Arguments Raise {A} e.

#[global] Instance result_ret : MRet result := fun A a => Return a.
#[global] Instance result_bind : MBind result := fun A B f r =>
  match r with
  | Return a => f a
  | Raise e => Raise e
  end.

(** ** Credential policies, policies and pipelines *)

(** What [_create_pipeline] stores in [self._credential_policy]: a bearer
    token policy over the credential and the OAuth scope, the credential
    itself when it already is a shared-key policy, or a SAS policy over
    the credential. *)
Inductive credential_policy :=
| AsyncBearerTokenCredentialPolicy (credential : value) (scope : string)
| SharedKeyCredentialPolicy (credential : value)
| AzureSasCredentialPolicy (credential : value).

(** The configuration object: the truthy [_configuration] keyword
    argument, or what [create_configuration] returns for the keyword
    arguments; that function lives in [base_client.py], its result is
    kept symbolic and whether it raises is left to the environment. *)
Inductive configuration_object :=
| SuppliedConfiguration (v : value)
| create_configuration (kw : kwargs).

(** [config.transport] once assigned: a value taken from the keyword
    arguments, or a default [AioHttpTransport] built from the keyword
    arguments. *)
Inductive transport :=
| SuppliedTransport (v : value)
| AioHttpTransport (kw : kwargs).

(** The configuration as [_create_pipeline] returns it;
    [config_transport := None] stands for a configuration whose
    [transport] attribute the call has not assigned. *)
Record Configuration := {
  config_object : configuration_object;
  config_transport : option transport
}.

(** The policies the module instantiates or reads off the configuration,
    and the policy objects the caller hands in. *)
Inductive policy :=
| QueueMessagePolicy
| headers_policy (config : configuration_object)
| proxy_policy (config : configuration_object)
| user_agent_policy (config : configuration_object)
| StorageContentValidation
| StorageRequestHook (kw : kwargs)
| CredentialPolicy (p : credential_policy)
| ContentDecodePolicy (response_encoding : string)
| AsyncRedirectPolicy (kw : kwargs)
| StorageHosts (hosts : gmap string string) (kw : kwargs)
| retry_policy (config : configuration_object)
| logging_policy (config : configuration_object)
| AsyncStorageResponseHook (kw : kwargs)
| DistributedTracingPolicy (kw : kwargs)
| HttpLoggingPolicy (kw : kwargs)
| StorageHeadersPolicy
| SuppliedPolicy (o : PyObject).

(** The [policies] list handed to [AsyncPipeline]; an entry [None] is the
    Python [None] that [self._credential_policy] holds for anonymous
    access. *)
Abbreviation policy_chain := (list (option policy)).

Inductive pipeline :=
| SuppliedPipeline (v : value)
| AsyncPipeline (transport : transport) (policies : policy_chain).

(** A top-level request, as [post] returns it; [set_multipart_mixed]
    records on it the sub-requests, the policies to run on each of them
    and the [enforce_https] option. *)
Record multipart_mixed := {
  mm_requests : list SubRequest;
  mm_policies : list policy;
  mm_enforce_https : bool
}.

Record HttpRequest := {
  method : string;
  url : string;
  request_headers : gmap string string;
  multipart_mixed_info : option multipart_mixed
}.

Definition set_multipart_mixed (request : HttpRequest)
    (reqs : list SubRequest) (policies : list policy) (enforce_https : bool)
  : HttpRequest :=
  {| method := method request;
     url := url request;
     request_headers := request_headers request;
     multipart_mixed_info :=
       Some {| mm_requests := reqs;
               mm_policies := policies;
               mm_enforce_https := enforce_https |} |}.

(** ** The client *)

(** The attributes of [self] the mixin reads and writes. *)
Record client := {
  _credential_policy : option credential_policy;
  _hosts : gmap string string;
  scheme : string;
  primary_hostname : string;
  api_version : string;
  _pipeline : pipeline
}.

Definition set_credential_policy (p : option credential_policy) (self : client)
  : client :=
  {| _credential_policy := p;
     _hosts := _hosts self;
     scheme := scheme self;
     primary_hostname := primary_hostname self;
     api_version := api_version self;
     _pipeline := _pipeline self |}.

(** Methods run in a state-and-error monad over [self]: a raise keeps the
    assignments made before it. *)
Definition M (A : Type) : Type := client → result A * client.

#[global] Instance M_ret : MRet M := fun A a self => (Return a, self).
#[global] Instance M_bind : MBind M := fun A B f m self =>
  match m self with
  | (Return a, self') => f a self'
  | (Raise e, self') => (Raise e, self')
  end.

Definition raise {A : Type} (e : exception) : M A := fun self => (Raise e, self).
Definition get_self : M client := fun self => (Return self, self).
Definition assign_credential_policy (p : option credential_policy) : M unit :=
  fun self => (Return (), set_credential_policy p self).

(** A computation that reads and assigns nothing on [self]. *)
Definition lift {A : Type} (r : result A) : M A := fun self => (r, self).

(** ** AsyncStorageAccountHostsMixin.__enter__ *)

Definition __enter__ : M client :=
  raise (TypeError "Async client only supports 'async with'.").

Definition __exit__ : M unit := mret ().

(** ** AsyncStorageAccountHostsMixin._create_pipeline *)

(** What the module takes from its surroundings: the names imported from
    [.constants]; whether the import of [AioHttpTransport] succeeds in
    the running interpreter; whether [create_configuration] of
    [base_client.py] raises on given keyword arguments, and what; and
    what [x.__radd__(policies)] gives for an object [x] that defines
    [__radd__], the entries of its result or the exception raised. *)
Record environment := {
  CONNECTION_TIMEOUT : Z;
  READ_TIMEOUT : Z;
  STORAGE_OAUTH_SCOPE : string;
  AioHttpTransport_importable : bool;
  create_configuration_raises : kwargs → option exception;
  reflected_add : PyObject → policy_chain → result policy_chain
}.

Definition dquote : string := String (Ascii.ascii_of_nat 34) "".

(** [type(v).__name__], as the messages of the interpreter quote it. *)
Definition type_name (v : value) : string :=
  match v with
  | VNone => "NoneType"
  | VBool _ => "bool"
  | VInt _ => "int"
  | VStr _ => "str"
  | VList _ => "list"
  | VObject o => List.hd "object" (py_mro o)
  end.

Definition no_attribute (v : value) (name : string) : exception :=
  AttributeError ("'" +:+ type_name v +:+ "' object has no attribute '"
                  +:+ name +:+ "'").

(** Line 80, [kwargs.get('_configuration') or create_configuration(...)]:
    the keyword argument when it is truthy, else the call, which may
    raise. *)
Definition configuration_for (env : environment) (kw : kwargs)
  : result configuration_object :=
  if truthy (kwargs_get "_configuration" kw)
  then Return (SuppliedConfiguration (kwargs_get "_configuration" kw))
  else match create_configuration_raises env kw with
       | Some e => Raise e
       | None => Return (create_configuration kw)
       end.

(** [config.name = ...]: an instance takes the attribute, a number, a
    string or a list does not. *)
Definition config_setattr (config : configuration_object) (name : string)
  : result unit :=
  match config with
  | create_configuration _ => Return ()
  | SuppliedConfiguration (VObject _) => Return ()
  | SuppliedConfiguration v => Raise (no_attribute v name)
  end.

(** [config.name]: the configuration [create_configuration] returns has
    the attribute, a supplied object has it when it answers to the
    name. *)
Definition config_getattr (config : configuration_object) (name : string)
    (attribute : configuration_object → policy) : result policy :=
  match config with
  | create_configuration _ => Return (attribute config)
  | SuppliedConfiguration (VObject o) =>
      if bool_decide (name ∈ py_attrs o) then Return (attribute config)
      else Raise (no_attribute (VObject o) name)
  | SuppliedConfiguration v => Raise (no_attribute v name)
  end.

(** Line 102, [StorageHosts(hosts=self._hosts, **kwargs)]: a [hosts] key
    among the keyword arguments gives the keyword twice. *)
Definition new_StorageHosts (hosts : gmap string string) (kw : kwargs)
  : result policy :=
  match kw !! "hosts" with
  | Some _ =>
      Raise (TypeError
        "StorageHosts() got multiple values for keyword argument 'hosts'")
  | None => Return (StorageHosts hosts kw)
  end.

(** [policies + v]: the concatenation when [v] is a list; what
    [v.__radd__] makes of it when [v] is an object that defines the
    method; a [TypeError] otherwise. *)
Definition list_add (env : environment) (policies : policy_chain) (v : value)
  : result policy_chain :=
  let not_a_list :=
    Raise (TypeError ("can only concatenate list (not " +:+ dquote
                      +:+ type_name v +:+ dquote +:+ ") to list")) in
  match v with
  | VList l => Return (policies ++ ((λ o, Some (SuppliedPolicy o)) <$> l))%list
  | VObject o =>
      if bool_decide ("__radd__" ∈ py_attrs o)
      then reflected_add env o policies
      else not_a_list
  | _ => not_a_list
  end.

(** Lines 80-111, which read [self._hosts] and [self._credential_policy]
    and assign nothing on [self]; the entries of the list of lines 92-108
    are evaluated in order. *)
Definition _create_pipeline_body (env : environment) (kw : kwargs)
    (hosts : gmap string string) (cred : option credential_policy)
  : result (Configuration * pipeline) :=
  config ← configuration_for env kw;
  if truthy (kwargs_get "_pipeline" kw) then
    mret ({| config_object := config; config_transport := None |},
          SuppliedPipeline (kwargs_get "_pipeline" kw))
  else
    let supplied := kwargs_get "transport" kw in
    config_setattr config "transport";;
    let kw := kwargs_setdefault "connection_timeout"
                (VInt (CONNECTION_TIMEOUT env)) kw in
    let kw := kwargs_setdefault "read_timeout" (VInt (READ_TIMEOUT env)) kw in
    transport ←
      (if negb (truthy supplied) then
         if AioHttpTransport_importable env then mret (AioHttpTransport kw)
         else Raise (ImportError
           "Unable to create async transport. Please check aiohttp is installed.")
       else mret (SuppliedTransport supplied));
    headers ← config_getattr config "headers_policy" headers_policy;
    proxy ← config_getattr config "proxy_policy" proxy_policy;
    user_agent ← config_getattr config "user_agent_policy" user_agent_policy;
    storage_hosts ← new_StorageHosts hosts kw;
    retry ← config_getattr config "retry_policy" retry_policy;
    logging ← config_getattr config "logging_policy" logging_policy;
    let policies := [
      Some QueueMessagePolicy;
      Some headers;
      Some proxy;
      Some user_agent;
      Some StorageContentValidation;
      Some (StorageRequestHook kw);
      CredentialPolicy <$> cred;
      Some (ContentDecodePolicy "utf-8");
      Some (AsyncRedirectPolicy kw);
      Some storage_hosts;
      Some retry;
      Some logging;
      Some (AsyncStorageResponseHook kw);
      Some (DistributedTracingPolicy kw);
      Some (HttpLoggingPolicy kw)
    ] in
    policies ←
      (if truthy (kwargs_get "_additional_pipeline_policies" kw)
       then list_add env policies
              (kwargs_get "_additional_pipeline_policies" kw)
       else mret policies);
    mret ({| config_object := config; config_transport := Some transport |},
          AsyncPipeline transport policies).

(** Lines 71-79 assign [self._credential_policy]; the rest follows. *)
Definition _create_pipeline (env : environment) (credential : value)
    (kw : kwargs) : M (Configuration * pipeline) :=
  assign_credential_policy None;;
  (if hasattr credential "get_token" then
     assign_credential_policy
       (Some (AsyncBearerTokenCredentialPolicy credential
                (STORAGE_OAUTH_SCOPE env)))
   else if isinstance credential "SharedKeyCredentialPolicy" then
     assign_credential_policy (Some (SharedKeyCredentialPolicy credential))
   else if isinstance credential "AzureSasCredential" then
     assign_credential_policy (Some (AzureSasCredentialPolicy credential))
   else if is_not_None credential then
     raise (TypeError ("Unsupported credential: " +:+ py_str credential))
   else mret ());;
  self ← get_self;
  lift (_create_pipeline_body env kw (_hosts self) (_credential_policy self)).

(** ** AsyncStorageAccountHostsMixin._batch_send *)

(** [response.parts()] is an asynchronous iterator over the parts of a
    multipart response: forward-only, [__anext__] hands out the next part
    together with the iterator that remains, and [None] stands for
    [StopAsyncIteration]. *)
Record AsyncIterator := { pending : list HttpResponse }.

Definition __anext__ (it : AsyncIterator)
  : option (HttpResponse * AsyncIterator) :=
  match pending it with
  | [] => None
  | part :: rest => Some (part, {| pending := rest |})
  end.

(** What [_batch_send] hands back: [AsyncList(parts_list)], the iterator
    [parts] itself, or [None] when the [except] clause ends without a
    raise. *)
Inductive batch_result :=
| AsyncList (parts_list : list HttpResponse)
| Parts (parts : AsyncIterator)
| ReturnedNone.

(** What [_batch_send] calls but does not define: the [post] of the
    client's pipeline client, which builds the request for a URL and
    headers, treats the URL as a template and may change it or raise; the
    run of the client's pipeline (every exception of the exchange
    included); the multipart reader [response.parts()]; the error decoder
    [process_storage_error] of [response_handlers.py]; and whether the
    class [PartialBatchErrorException] declared there derives from
    [HttpResponseError]. *)
Class BatchCollaborators := {
  post : string → gmap string string → result HttpRequest;
  run : pipeline → HttpRequest → kwargs → result HttpResponse;
  parts : HttpResponse → AsyncIterator;
  process_storage_error : exception → result unit;
  PartialBatchErrorException_is_HttpResponseError : bool
}.

(** [async for part in parts: parts_list.append(part)]. *)
Fixpoint async_for_append (pending : list HttpResponse)
    (parts_list : list HttpResponse) : list HttpResponse :=
  match pending with
  | [] => parts_list
  | part :: rest => async_for_append rest (parts_list ++ [part])%list
  end.

(** A response object is truthy: its class defines neither [__bool__] nor
    [__len__]. *)
Definition response_truthy (p : HttpResponse) : bool := true.

(** [any(p for p in parts_list if not 200 <= p.status_code < 300)]. *)
Definition any_failed_part (parts_list : list HttpResponse) : bool :=
  existsb response_truthy
    (List.filter
       (λ p, negb ((200 <=? status_code p) && (status_code p <? 300)))
       parts_list).

(** Lines 120-130, the evaluation of the arguments: the flag, the URL and
    the headers given to [post], and the keyword arguments left for the
    pipeline run. *)
Record batch_arguments := {
  raise_on_any_failure : value;
  post_url : string;
  post_headers : gmap string string;
  run_kwargs : kwargs
}.

Definition _batch_send_arguments (self : client) (kw : kwargs)
  : batch_arguments :=
  let '(flag, kw) := kwargs_pop "raise_on_any_failure" (VBool true) kw in
  let '(path, kw) := kwargs_pop "path" (VStr "") kw in
  let '(restype, kw) := kwargs_pop "restype" (VStr "") kw in
  let '(sas, kw) := kwargs_pop "sas" (VStr "") kw in
  let '(timeout, kw) := kwargs_pop "timeout" (VStr "") kw in
  {| raise_on_any_failure := flag;
     post_url := scheme self +:+ "://" +:+ primary_hostname self +:+ "/"
                 +:+ py_str path +:+ "?" +:+ py_str restype
                 +:+ "comp=batch" +:+ py_str sas +:+ py_str timeout;
     post_headers := {[ "x-ms-version" := api_version self ]};
     run_kwargs := kw |}.

(** Lines 121-140: the request [post] returns, with the multipart
    information set. *)
Definition _batch_send_request `{BatchCollaborators} (self : client)
    (reqs : list SubRequest) (kw : kwargs) : result HttpRequest :=
  let arguments := _batch_send_arguments self kw in
  request ← post (post_url arguments) (post_headers arguments);
  let policies := [StorageHeadersPolicy] in
  let policies :=
    match _credential_policy self with
    | Some p => (policies ++ [CredentialPolicy p])%list
    | None => policies
    end in
  mret (set_multipart_mixed request reqs policies false).

(** The [except HttpResponseError] clause of lines 163-164. *)
Definition isinstance_HttpResponseError `{BatchCollaborators} (e : exception)
  : bool :=
  match e with
  | HttpResponseError _ => true
  | PartialBatchErrorException _ _ _ =>
      PartialBatchErrorException_is_HttpResponseError
  | _ => false
  end.

Definition except_HttpResponseError `{BatchCollaborators}
    (r : result batch_result) : result batch_result :=
  match r with
  | Raise error =>
      if isinstance_HttpResponseError error
      then process_storage_error error;; mret ReturnedNone
      else Raise error
  | Return a => Return a
  end.

(** Lines 147-164: the classification of the top-level response. *)
Definition _batch_send_response `{BatchCollaborators}
    (raise_on_any_failure : value) (response : HttpResponse)
  : result batch_result :=
  except_HttpResponseError
    (if negb (bool_decide (status_code response ∈ [202])) then
       Raise (HttpResponseError response)
     else
       let parts := parts response in
       if truthy raise_on_any_failure then
         let parts_list := async_for_append (pending parts) [] in
         if any_failed_part parts_list then
           Raise (PartialBatchErrorException
                    "There is a partial failure in the batch operation."
                    response parts_list)
         else Return (AsyncList parts_list)
       else Return (Parts parts)).

Definition _batch_send `{BatchCollaborators} (self : client)
    (reqs : list SubRequest) (kw : kwargs) : result batch_result :=
  let arguments := _batch_send_arguments self kw in
  request ← _batch_send_request self reqs kw;
  response ← run (_pipeline self) request (run_kwargs arguments);
  _batch_send_response (raise_on_any_failure arguments) response.

(** The same collaborators with another multipart reader, and with
    another pipeline run. *)
Definition with_parts (C : BatchCollaborators)
    (reader : HttpResponse → AsyncIterator) : BatchCollaborators :=
  {| post := @post C;
     run := @run C;
     parts := reader;
     process_storage_error := @process_storage_error C;
     PartialBatchErrorException_is_HttpResponseError :=
       @PartialBatchErrorException_is_HttpResponseError C |}.

Definition with_run (C : BatchCollaborators)
    (runner : pipeline → HttpRequest → kwargs → result HttpResponse)
  : BatchCollaborators :=
  {| post := @post C;
     run := runner;
     parts := @parts C;
     process_storage_error := @process_storage_error C;
     PartialBatchErrorException_is_HttpResponseError :=
       @PartialBatchErrorException_is_HttpResponseError C |}.

(** [headers.get(name)] on a response. *)
Fixpoint header_get (name : string) (hs : list (string * string))
  : option string :=
  match hs with
  | [] => None
  | (k, v) :: rest => if String.eqb k name then Some v else header_get name rest
  end.

(** Modelled from the spec: [process_storage_error] is defined in
    [response_handlers.py], which is not under src/.  Section 4.5: a
    non-202 top-level response is converted to a StorageServiceError
    using the standard service-error decoding contract (status, error
    code, message extracted from body and headers); a PartialBatchFailure
    is distinct from it and is raised as it stands. *)
Definition decode_storage_error (error : exception) : result unit :=
  match error with
  | HttpResponseError response =>
      Raise (StorageServiceError response
               (header_get "x-ms-error-code" (headers response))
               (body response))
  | _ => Raise error
  end.

(** Modelled from the spec: the multipart encoder belongs to the pipeline
    implementation, which is not under src/.  Section 4.4, step 2: each
    part is processed through the policy subset recorded on the request,
    one policy after the other in list order; [on_request] is the effect
    of one policy on one sub-request. *)
Definition prepare_multipart_mixed_request
    (on_request : policy → SubRequest → SubRequest) (info : multipart_mixed)
  : list SubRequest :=
  (λ req, foldl (λ r p, on_request p r) req (mm_policies info))
    <$> mm_requests info.

(** Modelled from the spec: the run of the pipeline is not under src/.
    Section 4.4, steps 2 and 3: the sub-requests recorded on the request
    are encoded, each part processed as above, and the top-level request
    is sent with them; [exchange] is that sending. *)
Definition pipeline_run
    (on_request : policy → SubRequest → SubRequest)
    (exchange : pipeline → HttpRequest → list SubRequest → kwargs
                → result HttpResponse)
  : pipeline → HttpRequest → kwargs → result HttpResponse :=
  λ p request kw,
    exchange p request
      (from_option (prepare_multipart_mixed_request on_request) []
         (multipart_mixed_info request))
      kw.

(** ** AsyncTransportWrapper *)

(** The interface [AsyncHttpTransport]: a transport handle of type [T]
    acting on a store [S] that holds the state of the connections.
    [__aenter__] hands back the object for the [as] clause, or [None]. *)
Class AsyncHttpTransport (T S : Type) := {
  send : T → HttpRequest → kwargs → S → result HttpResponse * S;
  open : T → S → result unit * S;
  close : T → S → result unit * S;
  __aenter__ : T → S → result (option T) * S;
  __aexit__ : T → S → result unit * S
}.

(** The wrapper keeps a reference to the transport it was given. *)
Record AsyncTransportWrapper (T : Type) := { _transport : T }.
Arguments _transport {T} _.

#[global] Instance AsyncTransportWrapper_transport {T S : Type}
    `{AsyncHttpTransport T S} : AsyncHttpTransport (AsyncTransportWrapper T) S := {
  send self request kw := send (_transport self) request kw;
  open self s := (Return (), s);
  close self s := (Return (), s);
  __aenter__ self s := (Return None, s);
  __aexit__ self s := (Return (), s)
}.

(** A transport over one connection, to run the wrapper on: the store
    says whether the session is open and counts the exchanges; [send]
    opens the session when needed, [close] ends it. *)
Record session := { session_open : bool; exchanges : nat }.

Inductive SessionTransport := TheSessionTransport.

#[global] Instance SessionTransport_transport
  : AsyncHttpTransport SessionTransport session := {
  send self request kw s :=
    (Return {| status_code := 202; headers := []; body := url request |},
     {| session_open := true; exchanges := S (exchanges s) |});
  open self s :=
    (Return (), {| session_open := true; exchanges := exchanges s |});
  close self s :=
    (Return (), {| session_open := false; exchanges := exchanges s |});
  __aenter__ self s :=
    (Return (Some self), {| session_open := true; exchanges := exchanges s |});
  __aexit__ self s :=
    (Return (), {| session_open := false; exchanges := exchanges s |})
}.

(** ** The vocabulary of the specification *)

(** The specification's ConfigurationError covers the two exceptions
    [_create_pipeline] and [__enter__] raise themselves. *)
Definition is_configuration_error (e : exception) : bool :=
  match e with
  | TypeError _ | ImportError _ => true
  | _ => false
  end.

Definition is_partial_batch_failure (e : exception) : bool :=
  match e with
  | PartialBatchErrorException _ _ _ => true
  | _ => false
  end.

(** The twelve stages of section 4.2, head to tail. *)
Inductive stage :=
| MessageShape
| StaticHeaders
| ContentValidation
| RequestHook
| Credential
| Redirect
| HostSelection
| Retry
| ResponseLogging
| ResponseHook
| DistributedTracing
| HttpLogging.

Definition section_4_2_order : list stage :=
  [MessageShape; StaticHeaders; ContentValidation; RequestHook; Credential;
   Redirect; HostSelection; Retry; ResponseLogging; ResponseHook;
   DistributedTracing; HttpLogging].

(** The stage of section 4.2 a policy implements, if any: the response
    decoding policy and the caller's own policies are none of the
    twelve. *)
Definition stage_of (p : policy) : option stage :=
  match p with
  | QueueMessagePolicy => Some MessageShape
  | headers_policy _ | proxy_policy _ | user_agent_policy _
  | StorageHeadersPolicy => Some StaticHeaders
  | StorageContentValidation => Some ContentValidation
  | StorageRequestHook _ => Some RequestHook
  | CredentialPolicy _ => Some Credential
  | ContentDecodePolicy _ => None
  | AsyncRedirectPolicy _ => Some Redirect
  | StorageHosts _ _ => Some HostSelection
  | retry_policy _ => Some Retry
  | logging_policy _ => Some ResponseLogging
  | AsyncStorageResponseHook _ => Some ResponseHook
  | DistributedTracingPolicy _ => Some DistributedTracing
  | HttpLoggingPolicy _ => Some HttpLogging
  | SuppliedPolicy _ => None
  end.

#[global] Instance stage_eq_dec : EqDecision stage.
Proof. solve_decision. Defined.

(** The stages of section 4.2 that the entries of a chain implement, in
    the order of the chain. *)
Definition named_stages (chain : policy_chain) : list stage :=
  omap (λ entry, entry ≫= stage_of) chain.

(** Runs of one stage count once: the three static header policies are
    one stage. *)
Fixpoint collapse_runs (l : list stage) : list stage :=
  match l with
  | [] => []
  | x :: rest =>
      match rest with
      | y :: _ => if decide (x = y) then collapse_runs rest
                  else x :: collapse_runs rest
      | [] => [x]
      end
  end.

(** The order of section 4.2 for a client with a credential policy, and
    without its credential stage for anonymous access. *)
Definition stages_in_order (cred : option credential_policy) : list stage :=
  match cred with
  | Some _ => section_4_2_order
  | None => List.filter (λ s, negb (bool_decide (s = Credential)))
              section_4_2_order
  end.

(** The classification of a credential that lines 72-79 perform. *)
Definition unsupported_credential (credential : value) : bool :=
  negb (hasattr credential "get_token")
  && negb (isinstance credential "SharedKeyCredentialPolicy")
  && negb (isinstance credential "AzureSasCredential")
  && is_not_None credential.

Definition resolved_credential_policy (env : environment) (credential : value)
  : option credential_policy :=
  if hasattr credential "get_token" then
    Some (AsyncBearerTokenCredentialPolicy credential (STORAGE_OAUTH_SCOPE env))
  else if isinstance credential "SharedKeyCredentialPolicy" then
    Some (SharedKeyCredentialPolicy credential)
  else if isinstance credential "AzureSasCredential" then
    Some (AzureSasCredentialPolicy credential)
  else None.

(** The built-in chain of lines 92-108 for a configuration, the keyword
    arguments after the timeout defaults, the hosts and the credential
    policy. *)
Definition builtin_chain (config : configuration_object) (kw : kwargs)
    (hosts : gmap string string) (cred : option credential_policy)
  : policy_chain :=
  [ Some QueueMessagePolicy;
    Some (headers_policy config);
    Some (proxy_policy config);
    Some (user_agent_policy config);
    Some StorageContentValidation;
    Some (StorageRequestHook kw);
    CredentialPolicy <$> cred;
    Some (ContentDecodePolicy "utf-8");
    Some (AsyncRedirectPolicy kw);
    Some (StorageHosts hosts kw);
    Some (retry_policy config);
    Some (logging_policy config);
    Some (AsyncStorageResponseHook kw);
    Some (DistributedTracingPolicy kw);
    Some (HttpLoggingPolicy kw) ].

(** ** Auxiliary definitions for the statements *)

(** Consuming the iterator with [__anext__] until it stops. *)
Fixpoint consume (fuel : nat) (it : AsyncIterator) : list HttpResponse :=
  match fuel with
  | O => []
  | S fuel =>
      match __anext__ it with
      | Some (part, it') => part :: consume fuel it'
      | None => []
      end
  end.

Definition part_ok (p : HttpResponse) : Prop :=
  200 ≤ status_code p ∧ status_code p < 300.

(** The keyword arguments after the two [setdefault] calls. *)
Definition with_timeouts (env : environment) (kw : kwargs) : kwargs :=
  kwargs_setdefault "read_timeout" (VInt (READ_TIMEOUT env))
    (kwargs_setdefault "connection_timeout" (VInt (CONNECTION_TIMEOUT env)) kw).

(** The transport of the built pipeline. *)
Definition chosen_transport (env : environment) (kw : kwargs) : transport :=
  if truthy (kwargs_get "transport" kw)
  then SuppliedTransport (kwargs_get "transport" kw)
  else AioHttpTransport (with_timeouts env kw).

(** The policies a batch call has run on each part. *)
Definition reduced_policies (self : client) : list policy :=
  match _credential_policy self with
  | Some p => [StorageHeadersPolicy; CredentialPolicy p]
  | None => [StorageHeadersPolicy]
  end.

(** The policies after line 110. *)
Definition with_additional (env : environment) (kw : kwargs)
    (policies : policy_chain) : result policy_chain :=
  if truthy (kwargs_get "_additional_pipeline_policies" kw)
  then list_add env policies (kwargs_get "_additional_pipeline_policies" kw)
  else Return policies.

(** The attributes lines 92-108 read off the configuration, and whether a
    configuration takes the transport and answers to all of them. *)
Definition policy_attributes : list string :=
  ["headers_policy"; "proxy_policy"; "user_agent_policy"; "retry_policy";
   "logging_policy"].

Definition configuration_usable (config : configuration_object) : bool :=
  match config with
  | create_configuration _ => true
  | SuppliedConfiguration (VObject o) =>
      forallb (λ name, bool_decide (name ∈ py_attrs o)) policy_attributes
  | SuppliedConfiguration _ => false
  end.


(** ** Calls on a transport *)

(** A caller's use of a transport: a sequence of awaited calls, each of
    which either returns or raises; what the caller sees of a call is the
    response of a [send], nothing of the others. *)
Inductive transport_call :=
| CallSend (request : HttpRequest) (kw : kwargs)
| CallOpen
| CallClose
| CallEnter
| CallExit.

Definition is_send (c : transport_call) : bool :=
  match c with
  | CallSend _ _ => true
  | _ => false
  end.

Definition seen {A : Type} (r : result A) (see : A → option HttpResponse)
  : result (option HttpResponse) :=
  match r with
  | Return a => Return (see a)
  | Raise e => Raise e
  end.

Definition call {T S : Type} `{AsyncHttpTransport T S} (t : T)
    (c : transport_call) (s : S) : result (option HttpResponse) * S :=
  match c with
  | CallSend request kw => let '(r, s') := send t request kw s in (seen r Some, s')
  | CallOpen => let '(r, s') := open t s in (seen r (λ _, None), s')
  | CallClose => let '(r, s') := close t s in (seen r (λ _, None), s')
  | CallEnter => let '(r, s') := __aenter__ t s in (seen r (λ _, None), s')
  | CallExit => let '(r, s') := __aexit__ t s in (seen r (λ _, None), s')
  end.

(** The calls are made one after the other, whatever each one raised. *)
Fixpoint run_calls {T S : Type} `{AsyncHttpTransport T S} (t : T)
    (calls : list transport_call) (s : S)
  : list (transport_call * result (option HttpResponse)) * S :=
  match calls with
  | [] => ([], s)
  | c :: rest =>
      let '(seen_now, s') := call t c s in
      let '(seen_later, s'') := run_calls t rest s' in
      ((c, seen_now) :: seen_later, s'')
  end.

(** ** Sample inputs *)

(** A [create_configuration] that builds the user agent from
    [sdk_moniker], or from [storage_sdk] when that is missing, and raises
    [KeyError] when both are. *)
Definition needs_sdk_moniker (kw : kwargs) : option exception :=
  if truthy (kwargs_get "sdk_moniker" kw) then None
  else match kw !! "storage_sdk" with
       | Some _ => None
       | None => Some (KeyError "storage_sdk")
       end.

(** An [__radd__] that answers [NotImplemented], which leaves the
    concatenation to the list. *)
Definition not_implemented (o : PyObject) (policies : policy_chain)
  : result policy_chain :=
  Raise (TypeError ("can only concatenate list (not " +:+ dquote
                    +:+ type_name (VObject o) +:+ dquote +:+ ") to list")).

Definition sample_environment (importable : bool) : environment :=
  {| CONNECTION_TIMEOUT := 20;
     READ_TIMEOUT := 80000;
     STORAGE_OAUTH_SCOPE := "https://storage.azure.com/.default";
     AioHttpTransport_importable := importable;
     create_configuration_raises := needs_sdk_moniker;
     reflected_add := not_implemented |}.

(** The same environment with another answer to the import. *)
Definition with_importable (env : environment) (importable : bool)
  : environment :=
  {| CONNECTION_TIMEOUT := CONNECTION_TIMEOUT env;
     READ_TIMEOUT := READ_TIMEOUT env;
     STORAGE_OAUTH_SCOPE := STORAGE_OAUTH_SCOPE env;
     AioHttpTransport_importable := importable;
     create_configuration_raises := create_configuration_raises env;
     reflected_add := reflected_add env |}.

Definition sample_client : client :=
  {| _credential_policy := None;
     _hosts := {[ "primary" := "account.dfs.core.windows.net" ]};
     scheme := "https";
     primary_hostname := "account.dfs.core.windows.net";
     api_version := "2021-08-06";
     _pipeline := SuppliedPipeline VNone |}.

Definition token_credential : value :=
  VObject {| py_mro := ["ClientSecretCredential"; "object"];
             py_attrs := ["get_token"; "close"];
             py_repr := "<ClientSecretCredential>" |}.

(** A shared-key policy object, and one that also answers to
    [get_token]. *)
Definition shared_key_credential : value :=
  VObject {| py_mro := ["SharedKeyCredentialPolicy"; "SansIOHTTPPolicy";
                        "object"];
             py_attrs := ["on_request"];
             py_repr := "<SharedKeyCredentialPolicy>" |}.

Definition shared_key_with_token : value :=
  VObject {| py_mro := ["SharedKeyCredentialPolicy"; "SansIOHTTPPolicy";
                        "object"];
             py_attrs := ["get_token"; "on_request"];
             py_repr := "<SharedKeyCredentialPolicy>" |}.

Definition prebuilt_pipeline : value :=
  VObject {| py_mro := ["AsyncPipeline"; "object"];
             py_attrs := ["run"];
             py_repr := "<AsyncPipeline>" |}.

Definition own_policy : PyObject :=
  {| py_mro := ["SansIOHTTPPolicy"; "object"];
     py_attrs := ["on_request"; "on_response"];
     py_repr := "<MyPolicy>" |}.

Definition own_transport : value :=
  VObject {| py_mro := ["AioHttpTransport"; "AsyncHttpTransport"; "object"];
             py_attrs := ["send"; "open"; "close"];
             py_repr := "<AioHttpTransport>" |}.

(** Keyword arguments as a client passes them: the moniker of the
    package, alone and with more. *)
Definition sdk_kwargs : kwargs := {[ "sdk_moniker" := VStr "storage-dfs/12.14.0" ]}.

Definition prebuilt_kwargs : kwargs := <["_pipeline" := prebuilt_pipeline]> sdk_kwargs.

Definition additional_kwargs : kwargs :=
  <["_additional_pipeline_policies" := VList [own_policy]]> sdk_kwargs.

Definition single_policy_kwargs : kwargs :=
  <["_additional_pipeline_policies" := VObject own_policy]> sdk_kwargs.

Definition short_timeout : kwargs := <["connection_timeout" := VInt 5]> sdk_kwargs.

Definition own_transport_kwargs : kwargs := <["transport" := own_transport]> sdk_kwargs.

(** [str.format()] without arguments on a template whose braces are all
    doubled: each pair gives one brace.  [None] for any other use of a
    brace, which makes a replacement field or a malformed template. *)
Fixpoint format_doubled_braces (template : string) : option string :=
  match template with
  | EmptyString => Some EmptyString
  | String c rest =>
      if Ascii.eqb c (Ascii.ascii_of_nat 123)
         || Ascii.eqb c (Ascii.ascii_of_nat 125) then
        match rest with
        | String c' rest' =>
            if Ascii.eqb c c' then String c <$> format_doubled_braces rest'
            else None
        | EmptyString => None
        end
      else String c <$> format_doubled_braces rest
  end.

(** A [post] that formats the URL as the pipeline client does a template
    whose braces are all doubled, and a template without braces, when the
    URL has a scheme and a host: it builds a POST request for the
    formatted URL.  On any other brace the client drops sections of the
    URL or raises; this sample raises, and the samples below stay clear
    of it. *)
Definition template_post (u : string) (h : gmap string string)
  : result HttpRequest :=
  match format_doubled_braces u with
  | Some formatted =>
      Return {| method := "POST";
                url := formatted;
                request_headers := h;
                multipart_mixed_info := None |}
  | None => Raise (ValueError "unsupported format string")
  end.

(** A part of status [status], and collaborators for a batch whose
    top-level response has status [top] and whose parts have the statuses
    [statuses]: the decoder is the one modelled from the specification,
    and [PartialBatchErrorException] derives from [HttpResponseError]. *)
Definition part (status : Z) : HttpResponse :=
  {| status_code := status; headers := []; body := "" |}.

Definition top_response (top : Z) : HttpResponse :=
  {| status_code := top;
     headers := [("x-ms-error-code", "InternalError")];
     body := "The server encountered an internal error." |}.

Definition sample_collaborators (top : Z) (statuses : list Z)
  : BatchCollaborators :=
  {| post := template_post;
     run := λ _ _ _, Return (top_response top);
     parts := λ _, {| pending := part <$> statuses |};
     process_storage_error := decode_storage_error;
     PartialBatchErrorException_is_HttpResponseError := true |}.

(** Collaborators whose pipeline run raises [e]. *)
Definition failing_collaborators (e : exception) : BatchCollaborators :=
  {| post := template_post;
     run := λ _ _ _, Raise e;
     parts := λ _, {| pending := [] |};
     process_storage_error := decode_storage_error;
     PartialBatchErrorException_is_HttpResponseError := true |}.

(** Collaborators as [sample_collaborators], with a decoder that returns
    without raising. *)
Definition silent_collaborators (top : Z) (statuses : list Z)
  : BatchCollaborators :=
  {| post := template_post;
     run := λ _ _ _, Return (top_response top);
     parts := λ _, {| pending := part <$> statuses |};
     process_storage_error := λ _, Return ();
     PartialBatchErrorException_is_HttpResponseError := true |}.

(** A pipeline whose policies tag the sub-requests they process with
    their name, and whose exchange answers 202 with one part of status
    200 for each encoded part. *)
Definition tagging (p : policy) (req : SubRequest) : SubRequest :=
  {| sub_method := sub_method req;
     sub_url := sub_url req;
     sub_headers :=
       (sub_headers req
        ++ [(match p with
             | StorageHeadersPolicy => "x-ms-date"
             | CredentialPolicy _ => "Authorization"
             | _ => "x-other"
             end, "set")])%list;
     sub_body := sub_body req |}.

Definition delete_blob (name : string) : SubRequest :=
  {| sub_method := "DELETE"; sub_url := "/container/" +:+ name;
     sub_headers := []; sub_body := "" |}.

(** * Properties *)

(** ** Keyword arguments and iteration *)

Lemma kwargs_pop_value (k : string) (d : value) (kw : kwargs) :
  (kwargs_pop k d kw).1 = default d (kw !! k).
Proof. reflexivity. Qed.

Lemma kwargs_pop_other (k k' : string) (d : value) (kw : kwargs) :
  k ≠ k' → (kwargs_pop k d kw).2 !! k' = kw !! k'.
Proof. intros Hne. unfold kwargs_pop; simpl. by rewrite lookup_delete_ne. Qed.

Lemma kwargs_pop_insert (k : string) (d v : value) (kw : kwargs) :
  (kwargs_pop k d (<[k := v]> kw)).2 = (kwargs_pop k d kw).2.
Proof. unfold kwargs_pop; simpl. by rewrite delete_insert_eq. Qed.

Lemma async_for_append_app (pending parts_list : list HttpResponse) :
  async_for_append pending parts_list = (parts_list ++ pending)%list.
Proof.
  revert parts_list.
  induction pending as [|part rest IH]; intros parts_list; simpl.
  - by rewrite app_nil_r.
  - rewrite IH. by rewrite <- app_assoc.
Qed.

Lemma consume_all (it : AsyncIterator) :
  consume (S (length (pending it))) it = pending it.
Proof.
  destruct it as [l]. simpl pending.
  induction l as [|part rest IH]; [reflexivity|].
  change (consume (S (length (part :: rest))) {| pending := part :: rest |})
    with (part :: consume (S (length rest)) {| pending := rest |}).
  by rewrite IH.
Qed.

Lemma any_failed_part_true (parts_list : list HttpResponse) :
  any_failed_part parts_list = true ↔ ∃ p, p ∈ parts_list ∧ ¬ part_ok p.
Proof.
  unfold any_failed_part, part_ok. rewrite existsb_exists. split.
  - intros (p & Hin & _). apply filter_In in Hin as [Hin Hbad].
    exists p. split; [by apply list_elem_of_In|].
    apply negb_true_iff, andb_false_iff in Hbad. lia.
  - intros (p & Hin & Hbad). exists p. split; [|reflexivity].
    apply filter_In. split; [by apply list_elem_of_In|].
    apply negb_true_iff, andb_false_iff. lia.
Qed.

Lemma any_failed_part_false (parts_list : list HttpResponse) :
  any_failed_part parts_list = false ↔ ∀ p, p ∈ parts_list → part_ok p.
Proof.
  split.
  - intros Hnone p Hin.
    destruct (decide (200 ≤ status_code p ∧ status_code p < 300)) as [|Hbad];
      [done|].
    assert (any_failed_part parts_list = true) as Htrue
      by (apply any_failed_part_true; eauto).
    congruence.
  - intros Hall. apply not_true_is_false. intros Htrue.
    apply any_failed_part_true in Htrue as (p & Hin & Hbad). auto.
Qed.

(** ** Synchronous scoped use *)

(** C9: on every client the synchronous [__enter__] fails at once with a
    configuration error, a [TypeError] whose message points the caller to
    ['async with'], and no attribute of the client has changed. *)
Theorem enter_rejects_synchronous_use (self : client) :
  __enter__ self
    = (Raise (TypeError "Async client only supports 'async with'."), self)
  ∧ is_configuration_error
      (TypeError "Async client only supports 'async with'.") = true
  ∧ ∃ before after,
      "Async client only supports 'async with'."
        = before +:+ "'async with'" +:+ after.
Proof.
  split; [reflexivity|]. split; [reflexivity|].
  by exists "Async client only supports ", ".".
Qed.

(** ** The transport wrapper *)

(** C8: the wrapper's [send] is the wrapped transport's [send], with the
    same result and the same effect on the store; [open], [close],
    [__aenter__] and [__aexit__] of the wrapper return without touching the
    store, so that a [send] on the wrapped transport after the wrapper's
    [close] or [__aexit__] behaves as it did before. *)
Theorem wrapper_delegates_send_and_never_closes {T S : Type}
    `{AsyncHttpTransport T S} (inner : T) (request : HttpRequest)
    (kw : kwargs) (s : S) :
  let wrapper := {| _transport := inner |} in
  send wrapper request kw s = send inner request kw s
  ∧ open wrapper s = (Return (), s)
  ∧ close wrapper s = (Return (), s)
  ∧ __aenter__ wrapper s = (Return None, s)
  ∧ __aexit__ wrapper s = (Return (), s)
  ∧ send inner request kw (close wrapper s).2 = send inner request kw s
  ∧ send inner request kw (__aexit__ wrapper s).2 = send inner request kw s.
Proof. intros wrapper. repeat split. Qed.

(** On the session transport the difference shows: closing the wrapper
    keeps the session open, closing the transport itself ends it. *)
Example wrapper_close_keeps_session_open :
  let s := {| session_open := true; exchanges := 3 |} in
  session_open (close {| _transport := TheSessionTransport |} s).2 = true
  ∧ session_open (close TheSessionTransport s).2 = false.
Proof. split; reflexivity. Qed.

(** ** The batch request *)

Lemma batch_send_unfold `{BatchCollaborators} (self : client)
    (reqs : list SubRequest) (kw : kwargs) :
  _batch_send self reqs kw
  = (request ← post (post_url (_batch_send_arguments self kw))
                 (post_headers (_batch_send_arguments self kw));
     response ← run (_pipeline self)
                  (set_multipart_mixed request reqs (reduced_policies self)
                     false)
                  (run_kwargs (_batch_send_arguments self kw));
     _batch_send_response (raise_on_any_failure (_batch_send_arguments self kw))
       response).
Proof.
  unfold _batch_send, _batch_send_request, reduced_policies.
  destruct (post _ _); simpl; [|reflexivity].
  by destruct (_credential_policy self).
Qed.

Lemma batch_request_returned `{BatchCollaborators} (self : client)
    (reqs : list SubRequest) (kw : kwargs) (request : HttpRequest) :
  _batch_send_request self reqs kw = Return request ↔
  ∃ posted,
    post (post_url (_batch_send_arguments self kw))
      (post_headers (_batch_send_arguments self kw)) = Return posted
    ∧ request = set_multipart_mixed posted reqs (reduced_policies self) false.
Proof.
  unfold _batch_send_request, reduced_policies.
  destruct (post _ _) as [posted|e]; simpl.
  - split.
    + intros [= <-]. exists posted. split; [done|].
      by destruct (_credential_policy self).
    + intros (posted' & [= <-] & ->). by destruct (_credential_policy self).
  - split; [discriminate|]. by intros (posted & Hposted & _).
Qed.

Lemma batch_arguments_flag (self : client) (kw : kwargs) :
  raise_on_any_failure (_batch_send_arguments self kw)
  = default (VBool true) (kw !! "raise_on_any_failure").
Proof. reflexivity. Qed.

Lemma batch_arguments_with_flag (self : client) (kw : kwargs) (v : value) :
  _batch_send_arguments self (<["raise_on_any_failure" := v]> kw)
  = {| raise_on_any_failure := v;
       post_url := post_url (_batch_send_arguments self kw);
       post_headers := post_headers (_batch_send_arguments self kw);
       run_kwargs := run_kwargs (_batch_send_arguments self kw) |}.
Proof.
  unfold _batch_send_arguments, kwargs_pop. simpl.
  by rewrite lookup_insert_eq, delete_insert_eq.
Qed.





(** C7: the request [_batch_send] sends carries the sub-requests as given
    and, as the policies of each part, the header policy followed by the
    client's credential policy when it has one and the header policy
    alone otherwise; a pipeline that encodes the parts as section 4.4
    says therefore sends each part processed by the header policy, then
    by the credential policy if any, and by nothing else. *)
Theorem batch_parts_use_reduced_policies `{C : BatchCollaborators}
    (self : client) (reqs : list SubRequest) (kw : kwargs)
    (posted : HttpRequest)
    (on_request : policy → SubRequest → SubRequest)
    (exchange : pipeline → HttpRequest → list SubRequest → kwargs
                → result HttpResponse) :
  post (post_url (_batch_send_arguments self kw))
       (post_headers (_batch_send_arguments self kw)) = Return posted →
  let reduced :=
    match _credential_policy self with
    | Some p => [StorageHeadersPolicy; CredentialPolicy p]
    | None => [StorageHeadersPolicy]
    end in
  let processed :=
    match _credential_policy self with
    | Some p =>
        (λ req, on_request (CredentialPolicy p)
                  (on_request StorageHeadersPolicy req)) <$> reqs
    | None => on_request StorageHeadersPolicy <$> reqs
    end in
  (∃ request,
     _batch_send_request self reqs kw = Return request
     ∧ multipart_mixed_info request
       = Some {| mm_requests := reqs;
                 mm_policies := reduced;
                 mm_enforce_https := false |})
  ∧ @_batch_send (with_run C (pipeline_run on_request exchange)) self reqs kw
    = (response ← exchange (_pipeline self)
                    (set_multipart_mixed posted reqs reduced false)
                    processed
                    (run_kwargs (_batch_send_arguments self kw));
       _batch_send_response
         (raise_on_any_failure (_batch_send_arguments self kw)) response).
Proof.
  intros Hpost reduced processed. split.
  - exists (set_multipart_mixed posted reqs (reduced_policies self) false).
    split; [apply batch_request_returned; by exists posted|].
    subst reduced. unfold reduced_policies.
    by destruct (_credential_policy self).
  - rewrite batch_send_unfold. cbn [post with_run run].
    rewrite Hpost. simpl. unfold pipeline_run. simpl.
    subst reduced processed. unfold reduced_policies,
      prepare_multipart_mixed_request.
    by destruct (_credential_policy self).
Qed.

Lemma batch_parts_witness :
  ∃ request,
    @_batch_send_request (sample_collaborators 202 [200; 200])
      (set_credential_policy
         (Some (SharedKeyCredentialPolicy shared_key_credential))
         sample_client)
      [delete_blob "a"; delete_blob "b"] ∅
    = Return request
    ∧ multipart_mixed_info request
      = Some {| mm_requests := [delete_blob "a"; delete_blob "b"];
                mm_policies :=
                  [StorageHeadersPolicy;
                   CredentialPolicy
                     (SharedKeyCredentialPolicy shared_key_credential)];
                mm_enforce_https := false |}.
Proof.
  refine (proj1 (@batch_parts_use_reduced_policies
                   (sample_collaborators 202 [200; 200])
                   (set_credential_policy
                      (Some (SharedKeyCredentialPolicy shared_key_credential))
                      sample_client)
                   [delete_blob "a"; delete_blob "b"] (∅ : kwargs)
                   {| method := "POST";
                      url := "https://account.dfs.core.windows.net/?comp=batch";
                      request_headers := {[ "x-ms-version" := "2021-08-06" ]};
                      multipart_mixed_info := None |}
                   tagging (λ _ _ _ _, Return (top_response 202)) _)).
  reflexivity.
Defined.

Lemma batch_arguments_default (self : client) (kw : kwargs) :
  kw !! "raise_on_any_failure" = None →
  _batch_send_arguments self (<["raise_on_any_failure" := VBool true]> kw)
  = _batch_send_arguments self kw.
Proof.
  intros Hnone. unfold _batch_send_arguments, kwargs_pop.
  by rewrite lookup_insert_eq, delete_insert_eq, Hnone.
Qed.

(** ** The classification of the batch response *)

Section BatchResponse.
Context `{C : BatchCollaborators}.
Variables (self : client) (reqs : list SubRequest) (kw : kwargs).
Variables (request : HttpRequest) (response : HttpResponse).

Hypothesis Hrequest : _batch_send_request self reqs kw = Return request.
Hypothesis Hrun :
  run (_pipeline self) request (run_kwargs (_batch_send_arguments self kw))
  = Return response.

Lemma batch_send_after_run :
  _batch_send self reqs kw
  = _batch_send_response
      (default (VBool true) (kw !! "raise_on_any_failure")) response.
Proof.
  unfold _batch_send. rewrite Hrequest. unfold mbind at 1, result_bind at 1.
  by rewrite Hrun.
Qed.

Lemma response_202_eager :
  status_code response = 202 →
  truthy (default (VBool true) (kw !! "raise_on_any_failure")) = true →
  _batch_send self reqs kw
  = except_HttpResponseError
      (if any_failed_part (pending (parts response)) then
         Raise (PartialBatchErrorException
                  "There is a partial failure in the batch operation."
                  response (pending (parts response)))
       else Return (AsyncList (pending (parts response)))).
Proof.
  intros Hstatus Hflag. rewrite batch_send_after_run.
  unfold _batch_send_response. rewrite Hstatus, Hflag. simpl.
  by rewrite async_for_append_app.
Qed.

Lemma response_not_202 :
  status_code response ≠ 202 →
  _batch_send self reqs kw
  = (process_storage_error (HttpResponseError response);;
     mret ReturnedNone).
Proof.
  intros Hstatus. rewrite batch_send_after_run. unfold _batch_send_response.
  rewrite bool_decide_eq_false_2; [reflexivity|].
  rewrite list_elem_of_singleton. exact Hstatus.
Qed.
End BatchResponse.

(** The decoder modelled from the specification meets both contracts the
    theorems below ask of [process_storage_error]. *)
Lemma decode_storage_error_reraises_partial (m : string) (r : HttpResponse)
    (ps : list HttpResponse) :
  decode_storage_error (PartialBatchErrorException m r ps)
  = Raise (PartialBatchErrorException m r ps).
Proof. reflexivity. Qed.

Lemma decode_storage_error_decodes (r : HttpResponse) :
  decode_storage_error (HttpResponseError r)
  = Raise (StorageServiceError r (header_get "x-ms-error-code" (headers r))
             (body r)).
Proof. reflexivity. Qed.

(** C1: with a truthy [raise_on_any_failure] (the default included) and a
    top-level response of status 202, [_batch_send] raises a
    [PartialBatchErrorException] exactly when some part has a status
    outside [200, 300); the exception then carries every part in order,
    the successful ones too, and the top-level response; when every part
    is within the range the call returns all parts in order.  The decoder
    [process_storage_error], through which the exception passes when its
    class derives from [HttpResponseError], is taken to raise it again
    with its response and parts. *)
Theorem eager_batch_raises_iff_some_part_failed `{C : BatchCollaborators}
    (self : client) (reqs : list SubRequest) (kw : kwargs)
    (request : HttpRequest) (response : HttpResponse) :
  truthy (default (VBool true) (kw !! "raise_on_any_failure")) = true →
  _batch_send_request self reqs kw = Return request →
  run (_pipeline self) request (run_kwargs (_batch_send_arguments self kw))
    = Return response →
  status_code response = 202 →
  (PartialBatchErrorException_is_HttpResponseError = true →
   ∀ m r ps, ∃ m',
     process_storage_error (PartialBatchErrorException m r ps)
     = Raise (PartialBatchErrorException m' r ps)) →
  let all_parts := pending (parts response) in
  ((∃ e, _batch_send self reqs kw = Raise e
         ∧ is_partial_batch_failure e = true)
   ↔ ∃ p, p ∈ all_parts ∧ ¬ part_ok p)
  ∧ ((∃ p, p ∈ all_parts ∧ ¬ part_ok p) →
     ∃ m, _batch_send self reqs kw
          = Raise (PartialBatchErrorException m response all_parts))
  ∧ ((∀ p, p ∈ all_parts → part_ok p) →
     _batch_send self reqs kw = Return (AsyncList all_parts)).
Proof.
  intros Hflag Hrequest Hrun Hstatus Hdecoder all_parts.
  pose proof (response_202_eager self reqs kw request response Hrequest Hrun
                Hstatus Hflag) as Hsend.
  fold all_parts in Hsend.
  assert ((∃ p, p ∈ all_parts ∧ ¬ part_ok p) →
          ∃ m, _batch_send self reqs kw
               = Raise (PartialBatchErrorException m response all_parts))
    as Hraise.
  { intros Hbad. apply any_failed_part_true in Hbad.
    rewrite Hsend, Hbad. simpl.
    destruct PartialBatchErrorException_is_HttpResponseError eqn:Hsub.
    - destruct (Hdecoder eq_refl
                  "There is a partial failure in the batch operation."
                  response all_parts) as [m' Hm'].
      exists m'. by rewrite Hm'.
    - by eexists. }
  assert ((∀ p, p ∈ all_parts → part_ok p) →
          _batch_send self reqs kw = Return (AsyncList all_parts)) as Hreturn.
  { intros Hok. apply any_failed_part_false in Hok.
    by rewrite Hsend, Hok. }
  split; [|by split].
  split.
  - intros (e & He & Hpartial).
    destruct (any_failed_part all_parts) eqn:Hany.
    + by apply any_failed_part_true.
    + pose proof (proj1 (any_failed_part_false _) Hany) as Hok.
      rewrite (Hreturn Hok) in He.
      discriminate.
  - intros Hbad. destruct (Hraise Hbad) as [m Hm]. eauto.
Qed.

Lemma eager_batch_witness :
  (∃ m,
     @_batch_send (sample_collaborators 202 [200; 404; 200]) sample_client [] ∅
     = Raise (PartialBatchErrorException m (top_response 202)
                [part 200; part 404; part 200]))
  ∧ @_batch_send (sample_collaborators 202 [200; 200; 200]) sample_client [] ∅
    = Return (AsyncList [part 200; part 200; part 200]).
Proof.
  split.
  - refine (proj1 (proj2 (@eager_batch_raises_iff_some_part_failed
              (sample_collaborators 202 [200; 404; 200]) sample_client []
              (∅ : kwargs) _ (top_response 202) _ _ _ _ _)) _).
    + reflexivity.
    + reflexivity.
    + reflexivity.
    + reflexivity.
    + intros _ m r ps. by exists m.
    + exists (part 404). split.
      * apply list_elem_of_further, list_elem_of_here.
      * unfold part_ok. simpl. lia.
  - refine (proj2 (proj2 (@eager_batch_raises_iff_some_part_failed
              (sample_collaborators 202 [200; 200; 200]) sample_client []
              (∅ : kwargs) _ (top_response 202) _ _ _ _ _)) _).
    + reflexivity.
    + reflexivity.
    + reflexivity.
    + reflexivity.
    + intros _ m r ps. by exists m.
    + intros p Hin. simpl in Hin. unfold part_ok.
      repeat (apply elem_of_cons in Hin as [Hp|Hin];
              [rewrite Hp; simpl; lia|]).
      by apply elem_of_nil in Hin.
Defined.

(** C2: when the top-level response has a status other than 202,
    [_batch_send] raises what the decoder makes of an [HttpResponseError]
    over that response, a StorageServiceError under the decoding
    contract; it raises no [PartialBatchErrorException], and the outcome
    is the same whatever the multipart reader would deliver, since the
    reader is never called. *)
Theorem non_202_raises_storage_error_without_reading_parts
    `{C : BatchCollaborators} (self : client) (reqs : list SubRequest)
    (kw : kwargs) (request : HttpRequest) (response : HttpResponse) :
  _batch_send_request self reqs kw = Return request →
  run (_pipeline self) request (run_kwargs (_batch_send_arguments self kw))
    = Return response →
  status_code response ≠ 202 →
  (∀ r, ∃ code msg,
     process_storage_error (HttpResponseError r)
     = Raise (StorageServiceError r code msg)) →
  (∃ code msg,
     _batch_send self reqs kw = Raise (StorageServiceError response code msg))
  ∧ (∀ e, _batch_send self reqs kw = Raise e →
          is_partial_batch_failure e = false)
  ∧ (∀ reader,
       @_batch_send (with_parts C reader) self reqs kw
       = _batch_send self reqs kw).
Proof.
  intros Hrequest Hrun Hstatus Hdecoder.
  pose proof (response_not_202 self reqs kw request response Hrequest Hrun
                Hstatus) as Hsend.
  destruct (Hdecoder response) as (code & msg & Hraise).
  rewrite Hraise in Hsend. simpl in Hsend.
  split; [by exists code, msg|]. split.
  - intros e He. rewrite Hsend in He. by injection He as <-.
  - intros reader. rewrite Hsend.
    rewrite (@response_not_202 (with_parts C reader) self reqs kw request
               response Hrequest Hrun Hstatus).
    simpl. by rewrite Hraise.
Qed.

Lemma non_202_witness :
  ∃ code msg,
    @_batch_send (sample_collaborators 500 [200; 404; 200]) sample_client [] ∅
    = Raise (StorageServiceError (top_response 500) code msg).
Proof.
  refine (proj1 (@non_202_raises_storage_error_without_reading_parts
            (sample_collaborators 500 [200; 404; 200]) sample_client []
            (∅ : kwargs) _ (top_response 500) _ _ _ _)).
  - reflexivity.
  - reflexivity.
  - simpl. lia.
  - intros r. by eexists _, _.
Defined.

(** C4: with a falsy [raise_on_any_failure] and a top-level response of
    status 202, [_batch_send] returns the iterator of parts as the reader
    made it, nothing consumed, whatever the statuses of the parts; the
    iterator then yields every part once, in order.  When the caller does
    not pass the flag it is [True]: the call is the one with
    [raise_on_any_failure=True]. *)
Theorem lazy_batch_returns_parts_unread `{C : BatchCollaborators}
    (self : client) (reqs : list SubRequest) (kw : kwargs)
    (request : HttpRequest) (response : HttpResponse) :
  truthy (default (VBool true) (kw !! "raise_on_any_failure")) = false →
  _batch_send_request self reqs kw = Return request →
  run (_pipeline self) request (run_kwargs (_batch_send_arguments self kw))
    = Return response →
  status_code response = 202 →
  _batch_send self reqs kw = Return (Parts (parts response))
  ∧ consume (S (length (pending (parts response)))) (parts response)
    = pending (parts response)
  ∧ (∀ kw' : kwargs, kw' !! "raise_on_any_failure" = None →
       raise_on_any_failure (_batch_send_arguments self kw') = VBool true
       ∧ _batch_send self reqs kw'
         = _batch_send self reqs (<["raise_on_any_failure" := VBool true]> kw')).
Proof.
  intros Hflag Hrequest Hrun Hstatus. split; [|split].
  - rewrite (batch_send_after_run self reqs kw request response Hrequest Hrun).
    unfold _batch_send_response. by rewrite Hstatus, Hflag.
  - apply consume_all.
  - intros kw' Hnone. split.
    + by rewrite batch_arguments_flag, Hnone.
    + unfold _batch_send, _batch_send_request.
      by rewrite batch_arguments_default.
Qed.

Lemma lazy_batch_witness :
  @_batch_send (sample_collaborators 202 [200; 404; 200]) sample_client []
    {[ "raise_on_any_failure" := VBool false ]}
  = Return (Parts {| pending := [part 200; part 404; part 200] |}).
Proof.
  refine (proj1 (@lazy_batch_returns_parts_unread
            (sample_collaborators 202 [200; 404; 200]) sample_client []
            ({[ "raise_on_any_failure" := VBool false ]} : kwargs)
            _ (top_response 202) _ _ _ _)).
  - reflexivity.
  - reflexivity.
  - reflexivity.
  - reflexivity.
Defined.


(** ** Pipeline construction *)

Ltac classify_credential credential :=
  unfold unsupported_credential, resolved_credential_policy in *;
  destruct (hasattr credential "get_token");
  destruct (isinstance credential "SharedKeyCredentialPolicy");
  destruct (isinstance credential "AzureSasCredential");
  destruct (is_not_None credential);
  simpl in *; try discriminate.

(** The call is the classification of the credential followed by lines
    80-111 on the policy it has stored. *)
Lemma create_pipeline_run (env : environment) (credential : value)
    (kw : kwargs) (self : client) :
  _create_pipeline env credential kw self
  = (if unsupported_credential credential
     then Raise (TypeError ("Unsupported credential: " +:+ py_str credential))
     else _create_pipeline_body env kw (_hosts self)
            (resolved_credential_policy env credential),
     set_credential_policy (resolved_credential_policy env credential) self).
Proof.
  unfold _create_pipeline, assign_credential_policy, raise, get_self, lift,
    mbind, mret, M_bind, M_ret.
  classify_credential credential; reflexivity.
Qed.

Lemma create_pipeline_state (env : environment) (credential : value)
    (kw : kwargs) (self : client) :
  (_create_pipeline env credential kw self).2
  = set_credential_policy (resolved_credential_policy env credential) self.
Proof. by rewrite create_pipeline_run. Qed.

Lemma create_pipeline_unsupported (env : environment) (credential : value)
    (kw : kwargs) (self : client) :
  unsupported_credential credential = true →
  _create_pipeline env credential kw self
  = (Raise (TypeError ("Unsupported credential: " +:+ py_str credential)),
     set_credential_policy None self).
Proof.
  intros Hbad. rewrite create_pipeline_run, Hbad. do 2 f_equal.
  clear kw self. by classify_credential credential.
Qed.

Lemma with_timeouts_connection (env : environment) (kw : kwargs) :
  with_timeouts env kw !! "connection_timeout"
  = Some (default (VInt (CONNECTION_TIMEOUT env)) (kw !! "connection_timeout")).
Proof.
  unfold with_timeouts, kwargs_setdefault.
  destruct (kw !! "connection_timeout") eqn:Hconn.
  - destruct (kw !! "read_timeout"); [done|]. by rewrite lookup_insert_ne.
  - rewrite lookup_insert_ne by done.
    destruct (kw !! "read_timeout"); rewrite ?lookup_insert_ne by done;
      by rewrite lookup_insert_eq.
Qed.

Lemma with_timeouts_read (env : environment) (kw : kwargs) :
  with_timeouts env kw !! "read_timeout"
  = Some (default (VInt (READ_TIMEOUT env)) (kw !! "read_timeout")).
Proof.
  unfold with_timeouts, kwargs_setdefault.
  destruct (kw !! "connection_timeout") eqn:Hconn.
  - destruct (kw !! "read_timeout") eqn:Hread; [done|].
    by rewrite lookup_insert_eq.
  - rewrite lookup_insert_ne by done.
    destruct (kw !! "read_timeout") eqn:Hread.
    + by rewrite lookup_insert_ne.
    + by rewrite lookup_insert_eq.
Qed.

Lemma with_timeouts_other (env : environment) (kw : kwargs) (k : string) :
  k ≠ "connection_timeout" → k ≠ "read_timeout" →
  with_timeouts env kw !! k = kw !! k.
Proof.
  intros Hc Hr. unfold with_timeouts, kwargs_setdefault.
  destruct (kw !! "connection_timeout") eqn:Hconn.
  - destruct (kw !! "read_timeout"); [done|]. by rewrite lookup_insert_ne.
  - rewrite lookup_insert_ne by done.
    destruct (kw !! "read_timeout"); rewrite ?lookup_insert_ne; done.
Qed.

Lemma kwargs_get_with_timeouts (env : environment) (kw : kwargs) (k : string) :
  k ≠ "connection_timeout" → k ≠ "read_timeout" →
  kwargs_get k (with_timeouts env kw) = kwargs_get k kw.
Proof. intros Hc Hr. unfold kwargs_get. by rewrite with_timeouts_other. Qed.

Lemma config_getattr_returned (config : configuration_object) (name : string)
    (attribute : configuration_object → policy) (p : policy) :
  config_getattr config name attribute = Return p → p = attribute config.
Proof.
  destruct config as [[| | | | |o]|kw0]; simpl; try discriminate.
  - case_bool_decide; [|discriminate]. by intros [= <-].
  - by intros [= <-].
Qed.

Lemma body_configuration_raises (env : environment) (kw : kwargs)
    (hosts : gmap string string) (cred : option credential_policy)
    (e : exception) :
  configuration_for env kw = Raise e →
  _create_pipeline_body env kw hosts cred = Raise e.
Proof. intros Hconfig. unfold _create_pipeline_body. by rewrite Hconfig. Qed.

Lemma body_supplied (env : environment) (kw : kwargs)
    (hosts : gmap string string) (cred : option credential_policy)
    (config : configuration_object) :
  configuration_for env kw = Return config →
  truthy (kwargs_get "_pipeline" kw) = true →
  _create_pipeline_body env kw hosts cred
  = Return ({| config_object := config; config_transport := None |},
            SuppliedPipeline (kwargs_get "_pipeline" kw)).
Proof.
  intros Hconfig Hpipeline. unfold _create_pipeline_body.
  rewrite Hconfig. simpl. by rewrite Hpipeline.
Qed.

Lemma body_no_transport (env : environment) (kw : kwargs)
    (hosts : gmap string string) (cred : option credential_policy)
    (config : configuration_object) :
  configuration_for env kw = Return config →
  truthy (kwargs_get "_pipeline" kw) = false →
  config_setattr config "transport" = Return () →
  truthy (kwargs_get "transport" kw) = false →
  AioHttpTransport_importable env = false →
  _create_pipeline_body env kw hosts cred
  = Raise (ImportError
      "Unable to create async transport. Please check aiohttp is installed.").
Proof.
  intros Hconfig Hpipeline Hsetattr Htransport Himport.
  unfold _create_pipeline_body. rewrite Hconfig. simpl.
  by rewrite Hpipeline, Hsetattr, Htransport, Himport.
Qed.

Lemma bind_returned {A B : Type} (m : result A) (f : A → result B) (b : B) :
  m ≫= f = Return b → ∃ a, m = Return a ∧ f a = Return b.
Proof. destruct m as [a|e]; [|discriminate]. intros Hf. by exists a. Qed.

(** A build that returns the supplied pipeline was given a truthy one. *)
Lemma body_supplied_inv (env : environment) (kw : kwargs)
    (hosts : gmap string string) (cred : option credential_policy)
    (cfg : Configuration) (v : value) :
  _create_pipeline_body env kw hosts cred = Return (cfg, SuppliedPipeline v) →
  truthy (kwargs_get "_pipeline" kw) = true.
Proof.
  unfold _create_pipeline_body. intros Hbody.
  apply bind_returned in Hbody as (config & _ & Hbody).
  destruct (truthy (kwargs_get "_pipeline" kw)); [done|].
  do 9 (apply bind_returned in Hbody as (? & _ & Hbody)).
  discriminate.
Qed.

(** What a build that returns a new pipeline tells. *)
Lemma body_built_inv (env : environment) (kw : kwargs)
    (hosts : gmap string string) (cred : option credential_policy)
    (cfg : Configuration) (t : transport) (chain : policy_chain) :
  _create_pipeline_body env kw hosts cred = Return (cfg, AsyncPipeline t chain) →
  ∃ config,
    configuration_for env kw = Return config
    ∧ truthy (kwargs_get "_pipeline" kw) = false
    ∧ cfg = {| config_object := config;
               config_transport := Some (chosen_transport env kw) |}
    ∧ t = chosen_transport env kw
    ∧ kw !! "hosts" = None
    ∧ with_additional env kw
        (builtin_chain config (with_timeouts env kw) hosts cred)
      = Return chain.
Proof.
  unfold _create_pipeline_body. fold (with_timeouts env kw).
  destruct (configuration_for env kw) as [config|e]; [|discriminate].
  simpl. destruct (truthy (kwargs_get "_pipeline" kw)); [discriminate|].
  destruct (config_setattr config "transport") as [[]|e]; [|discriminate].
  simpl. intros Hbody. exists config.
  assert (∀ transport0,
    (headers ← config_getattr config "headers_policy" headers_policy;
     proxy ← config_getattr config "proxy_policy" proxy_policy;
     user_agent ← config_getattr config "user_agent_policy" user_agent_policy;
     storage_hosts ← new_StorageHosts hosts (with_timeouts env kw);
     retry ← config_getattr config "retry_policy" retry_policy;
     logging ← config_getattr config "logging_policy" logging_policy;
     policies ←
       (if truthy (kwargs_get "_additional_pipeline_policies"
                     (with_timeouts env kw))
        then list_add env
               [Some QueueMessagePolicy; Some headers; Some proxy;
                Some user_agent; Some StorageContentValidation;
                Some (StorageRequestHook (with_timeouts env kw));
                CredentialPolicy <$> cred;
                Some (ContentDecodePolicy "utf-8");
                Some (AsyncRedirectPolicy (with_timeouts env kw));
                Some storage_hosts; Some retry; Some logging;
                Some (AsyncStorageResponseHook (with_timeouts env kw));
                Some (DistributedTracingPolicy (with_timeouts env kw));
                Some (HttpLoggingPolicy (with_timeouts env kw))]
               (kwargs_get "_additional_pipeline_policies"
                  (with_timeouts env kw))
        else mret
               [Some QueueMessagePolicy; Some headers; Some proxy;
                Some user_agent; Some StorageContentValidation;
                Some (StorageRequestHook (with_timeouts env kw));
                CredentialPolicy <$> cred;
                Some (ContentDecodePolicy "utf-8");
                Some (AsyncRedirectPolicy (with_timeouts env kw));
                Some storage_hosts; Some retry; Some logging;
                Some (AsyncStorageResponseHook (with_timeouts env kw));
                Some (DistributedTracingPolicy (with_timeouts env kw));
                Some (HttpLoggingPolicy (with_timeouts env kw))]);
     mret ({| config_object := config; config_transport := Some transport0 |},
           AsyncPipeline transport0 policies))
    = Return (cfg, AsyncPipeline t chain) →
    cfg = {| config_object := config; config_transport := Some transport0 |}
    ∧ t = transport0
    ∧ kw !! "hosts" = None
    ∧ with_additional env kw
        (builtin_chain config (with_timeouts env kw) hosts cred)
      = Return chain) as Htail.
  { intros transport0.
    destruct (config_getattr config "headers_policy" headers_policy)
      as [headers|e] eqn:Hheaders; [|discriminate].
    destruct (config_getattr config "proxy_policy" proxy_policy)
      as [proxy|e] eqn:Hproxy; [|discriminate].
    destruct (config_getattr config "user_agent_policy" user_agent_policy)
      as [user_agent|e] eqn:Huser; [|discriminate].
    simpl. unfold new_StorageHosts.
    rewrite with_timeouts_other by done.
    destruct (kw !! "hosts") eqn:Hhosts; [discriminate|]. simpl.
    destruct (config_getattr config "retry_policy" retry_policy)
      as [retry|e] eqn:Hretry; [|discriminate].
    destruct (config_getattr config "logging_policy" logging_policy)
      as [logging|e] eqn:Hlogging; [|discriminate].
    simpl.
    apply config_getattr_returned in Hheaders, Hproxy, Huser, Hretry, Hlogging.
    subst. unfold with_additional, builtin_chain.
    rewrite kwargs_get_with_timeouts by done.
    destruct (if truthy (kwargs_get "_additional_pipeline_policies" kw)
              then _ else _) as [policies|e]; [|discriminate].
    simpl. intros [= <- <- <-]. done. }
  unfold chosen_transport.
  destruct (truthy (kwargs_get "transport" kw)); simpl in Hbody.
  - destruct (Htail _ Hbody) as (-> & -> & Hhosts & Hchain). done.
  - destruct (AioHttpTransport_importable env); [|discriminate].
    simpl in Hbody. destruct (Htail _ Hbody) as (-> & -> & Hhosts & Hchain).
    done.
Qed.

(** C3, as stated, fails: with a pre-built pipeline among the keyword
    arguments, no transport supplied and no importable transport
    implementation, [_create_pipeline] returns the supplied pipeline and
    raises nothing. *)
Lemma prebuilt_pipeline_needs_no_transport :
  prebuilt_kwargs !! "transport" = None
  ∧ AioHttpTransport_importable (sample_environment false) = false
  ∧ _create_pipeline (sample_environment false) VNone prebuilt_kwargs
      sample_client
    = (Return ({| config_object := create_configuration prebuilt_kwargs;
                  config_transport := None |},
               SuppliedPipeline prebuilt_pipeline),
       sample_client).
Proof. split; [|split]; reflexivity. Qed.

(** C3, amended: an unsupported credential (not [None], no [get_token],
    neither a [SharedKeyCredentialPolicy] nor an [AzureSasCredential])
    makes [_create_pipeline] raise a [TypeError] whatever the keyword
    arguments; with a supported credential, a configuration that was
    supplied or created and takes the transport, no truthy [_pipeline],
    no truthy [transport] and no importable transport implementation it
    raises an [ImportError].  Both are configuration errors, raised before
    a pipeline exists: the call has assigned [self._credential_policy]
    and stored no pipeline. *)
Theorem create_pipeline_configuration_errors (env : environment)
    (credential : value) (kw : kwargs) (self : client) :
  unsupported_credential credential = true
  ∨ ((∃ config, configuration_for env kw = Return config
                ∧ config_setattr config "transport" = Return ())
     ∧ truthy (kwargs_get "_pipeline" kw) = false
     ∧ truthy (kwargs_get "transport" kw) = false
     ∧ AioHttpTransport_importable env = false) →
  ∃ e,
    (_create_pipeline env credential kw self).1 = Raise e
    ∧ is_configuration_error e = true
    ∧ e = (if unsupported_credential credential
           then TypeError ("Unsupported credential: " +:+ py_str credential)
           else ImportError
             "Unable to create async transport. Please check aiohttp is installed.")
    ∧ _credential_policy (_create_pipeline env credential kw self).2
      = resolved_credential_policy env credential
    ∧ _pipeline (_create_pipeline env credential kw self).2 = _pipeline self.
Proof.
  intros Hcase. rewrite create_pipeline_run. simpl.
  destruct (unsupported_credential credential) eqn:Hcredential.
  - eexists. repeat split.
  - destruct Hcase as [|((config & Hconfig & Hsetattr) & Hpipeline
                         & Htransport & Himport)]; [done|].
    rewrite (body_no_transport env kw _ _ config) by done.
    eexists. repeat split.
Qed.

Lemma create_pipeline_configuration_errors_witness :
  (∃ e,
     (_create_pipeline (sample_environment true) (VStr "account-key")
        sdk_kwargs sample_client).1 = Raise e
     ∧ e = TypeError "Unsupported credential: account-key")
  ∧ (∃ e,
       (_create_pipeline (sample_environment false) token_credential
          sdk_kwargs sample_client).1 = Raise e
       ∧ e = ImportError
           "Unable to create async transport. Please check aiohttp is installed.").
Proof.
  split.
  - destruct (create_pipeline_configuration_errors (sample_environment true)
                (VStr "account-key") sdk_kwargs sample_client)
      as (e & He & _ & Hwhich & _).
    + left. reflexivity.
    + exists e. split; [exact He|exact Hwhich].
  - destruct (create_pipeline_configuration_errors (sample_environment false)
                token_credential sdk_kwargs sample_client)
      as (e & He & _ & Hwhich & _).
    + right. split; [|repeat split; reflexivity].
      exists (create_configuration sdk_kwargs). split; reflexivity.
    + exists e. split; [exact He|exact Hwhich].
Defined.

(** C10: with a truthy [_pipeline] keyword argument, [_create_pipeline]
    still classifies the credential first: an unsupported one raises the
    [TypeError]; otherwise the policy of the credential is stored on the
    client and, once line 80 has the configuration, the call returns the
    supplied object itself as the pipeline.  It never returns a newly
    built [AsyncPipeline], and a pipeline it returns is the supplied
    one. *)
Theorem supplied_pipeline_returned_after_credential_check (env : environment)
    (credential : value) (kw : kwargs) (self : client) :
  truthy (kwargs_get "_pipeline" kw) = true →
  let outcome := _create_pipeline env credential kw self in
  outcome.1
    = (if unsupported_credential credential then
         Raise (TypeError ("Unsupported credential: " +:+ py_str credential))
       else
         match configuration_for env kw with
         | Return config =>
             Return ({| config_object := config; config_transport := None |},
                     SuppliedPipeline (kwargs_get "_pipeline" kw))
         | Raise e => Raise e
         end)
  ∧ _credential_policy outcome.2
    = (if hasattr credential "get_token" then
         Some (AsyncBearerTokenCredentialPolicy credential
                 (STORAGE_OAUTH_SCOPE env))
       else if isinstance credential "SharedKeyCredentialPolicy" then
         Some (SharedKeyCredentialPolicy credential)
       else if isinstance credential "AzureSasCredential" then
         Some (AzureSasCredentialPolicy credential)
       else None)
  ∧ _pipeline outcome.2 = _pipeline self
  ∧ (∀ config p,
       outcome.1 = Return (config, p) →
       p = SuppliedPipeline (kwargs_get "_pipeline" kw)
       ∧ unsupported_credential credential = false).
Proof.
  intros Hpipeline outcome. subst outcome. rewrite create_pipeline_run. simpl.
  assert (_create_pipeline_body env kw (_hosts self)
            (resolved_credential_policy env credential)
          = match configuration_for env kw with
            | Return config =>
                Return ({| config_object := config;
                           config_transport := None |},
                        SuppliedPipeline (kwargs_get "_pipeline" kw))
            | Raise e => Raise e
            end) as Hbody.
  { destruct (configuration_for env kw) as [config|e] eqn:Hconfig.
    - by apply body_supplied.
    - by apply body_configuration_raises. }
  rewrite Hbody. split; [reflexivity|]. split; [reflexivity|].
  split; [reflexivity|]. intros config p Hreturn.
  destruct (unsupported_credential credential); [discriminate|].
  destruct (configuration_for env kw); [|discriminate].
  by injection Hreturn as _ <-.
Qed.

Lemma supplied_pipeline_returned_witness :
  (_create_pipeline (sample_environment false) token_credential
     prebuilt_kwargs sample_client).1
  = Return ({| config_object := create_configuration prebuilt_kwargs;
               config_transport := None |},
            SuppliedPipeline prebuilt_pipeline)
  ∧ _credential_policy
      (_create_pipeline (sample_environment false) token_credential
         prebuilt_kwargs sample_client).2
    = Some (AsyncBearerTokenCredentialPolicy token_credential
              "https://storage.azure.com/.default").
Proof.
  destruct (supplied_pipeline_returned_after_credential_check
              (sample_environment false) token_credential prebuilt_kwargs
              sample_client)
    as (Hreturn & Hpolicy & _).
  - reflexivity.
  - split; [exact Hreturn|exact Hpolicy].
Defined.

(** C5: two clients with the same hosts get the same pipeline from the
    same inputs, whatever credential policy each held before.  The chain
    of a pipeline that is built, with additional policies that are a list
    or absent, is the built-in chain followed by the additional policies.
    The built-in chain has fifteen entries; those that implement a stage
    of section 4.2 come in the order of that section, the three static
    header policies counting once and the credential stage missing for
    anonymous access (the chain also holds a response decoding policy,
    which the section does not list, between the credential policy and
    the redirect policy); no additional policy stands among them. *)
Theorem policy_chain_is_fixed_and_additional_appended (env : environment)
    (credential : value) (kw : kwargs) (self1 self2 : client)
    (cfg : Configuration) (t : transport) (chain : policy_chain)
    (additional : list PyObject) :
  (_create_pipeline env credential kw self1).1
    = Return (cfg, AsyncPipeline t chain) →
  kwargs_get "_additional_pipeline_policies" kw = VList additional
    ∨ (truthy (kwargs_get "_additional_pipeline_policies" kw) = false
       ∧ additional = []) →
  _hosts self1 = _hosts self2 →
  let cred := resolved_credential_policy env credential in
  let builtin :=
    builtin_chain (config_object cfg) (with_timeouts env kw) (_hosts self1)
      cred in
  (_create_pipeline env credential kw self2).1
    = Return (cfg, AsyncPipeline t chain)
  ∧ chain = (builtin ++ ((λ o, Some (SuppliedPolicy o)) <$> additional))%list
  ∧ length builtin = 15%nat
  ∧ collapse_runs (named_stages builtin) = stages_in_order cred
  ∧ named_stages ((λ o, Some (SuppliedPolicy o)) <$> additional) = [].
Proof.
  intros Hreturn Hadditional Hhosts cred builtin.
  rewrite create_pipeline_run in Hreturn |- *. simpl in Hreturn |- *.
  rewrite <- Hhosts.
  destruct (unsupported_credential credential); [discriminate|].
  split; [exact Hreturn|].
  apply body_built_inv in Hreturn
    as (config & _ & _ & -> & _ & _ & Hchain).
  subst builtin cred. simpl config_object. split; [|split; [|split]].
  - unfold with_additional in Hchain.
    destruct Hadditional as [Hlist|[Hfalsy ->]].
    + rewrite Hlist in Hchain. destruct additional as [|o rest].
      * simpl in Hchain. by injection Hchain as <-.
      * simpl in Hchain. by injection Hchain as <-.
    + rewrite Hfalsy in Hchain. by injection Hchain as <-.
  - reflexivity.
  - by destruct (resolved_credential_policy env credential).
  - clear. induction additional as [|o rest IH]; [reflexivity|exact IH].
Qed.

Lemma policy_chain_witness :
  ∃ cfg t builtin,
    (_create_pipeline (sample_environment true) token_credential
       additional_kwargs sample_client).1
    = Return (cfg, AsyncPipeline t (builtin ++ [Some (SuppliedPolicy own_policy)]))
    ∧ length builtin = 15%nat
    ∧ collapse_runs (named_stages builtin) = section_4_2_order.
Proof.
  assert ((_create_pipeline (sample_environment true) token_credential
             additional_kwargs sample_client).1
          = Return
              ({| config_object := create_configuration additional_kwargs;
                  config_transport :=
                    Some (chosen_transport (sample_environment true)
                            additional_kwargs) |},
               AsyncPipeline
                 (chosen_transport (sample_environment true) additional_kwargs)
                 (builtin_chain (create_configuration additional_kwargs)
                    (with_timeouts (sample_environment true) additional_kwargs)
                    (_hosts sample_client)
                    (Some (AsyncBearerTokenCredentialPolicy token_credential
                             "https://storage.azure.com/.default"))
                  ++ [Some (SuppliedPolicy own_policy)])%list))
    as Hreturn by reflexivity.
  destruct (policy_chain_is_fixed_and_additional_appended
              (sample_environment true) token_credential additional_kwargs
              sample_client sample_client _ _ _ [own_policy] Hreturn
              (or_introl eq_refl) eq_refl)
    as (_ & _ & Hlength & Horder & _).
  eexists _, _, _. split; [exact Hreturn|]. split; [exact Hlength|exact Horder].
Defined.

(** * Further properties *)

(** ** What [_create_pipeline] leaves on the client *)

(** X1: whether it returns or raises, [_create_pipeline] changes nothing on
    the client but [_credential_policy]; the policy it leaves there depends
    on the credential alone, not on the policy held before nor on the
    keyword arguments, and the pipeline it returns is not stored on the
    client. *)
Theorem create_pipeline_frame (env : environment) (credential : value)
    (kw : kwargs) (self : client) :
  let self' := (_create_pipeline env credential kw self).2 in
  _hosts self' = _hosts self
  ∧ scheme self' = scheme self
  ∧ primary_hostname self' = primary_hostname self
  ∧ api_version self' = api_version self
  ∧ _pipeline self' = _pipeline self
  ∧ _credential_policy self' = resolved_credential_policy env credential
  ∧ (∀ (kw2 : kwargs) (self2 : client),
       _credential_policy (_create_pipeline env credential kw2 self2).2
       = _credential_policy self').
Proof.
  intros self'. subst self'. rewrite create_pipeline_state. repeat split.
  intros kw2 self2. by rewrite create_pipeline_state.
Qed.

(** X2: a credential that answers to [get_token] becomes a bearer token
    policy over the OAuth scope, also when it is an instance of
    [SharedKeyCredentialPolicy] or of [AzureSasCredential]: the capability
    is tested first. *)
Theorem token_capability_takes_precedence (env : environment)
    (credential : value) (kw : kwargs) (self : client) :
  hasattr credential "get_token" = true →
  _credential_policy (_create_pipeline env credential kw self).2
  = Some (AsyncBearerTokenCredentialPolicy credential (STORAGE_OAUTH_SCOPE env)).
Proof.
  intros Htoken. rewrite create_pipeline_state. simpl.
  unfold resolved_credential_policy. by rewrite Htoken.
Qed.

Lemma token_capability_witness :
  isinstance shared_key_with_token "SharedKeyCredentialPolicy" = true
  ∧ _credential_policy
      (_create_pipeline (sample_environment true) shared_key_with_token
         sdk_kwargs sample_client).2
    = Some (AsyncBearerTokenCredentialPolicy shared_key_with_token
              "https://storage.azure.com/.default").
Proof.
  split; [reflexivity|].
  refine (token_capability_takes_precedence (sample_environment true)
            shared_key_with_token sdk_kwargs sample_client _).
  reflexivity.
Defined.

(** X3: the client is left without a credential policy exactly when the
    credential is [None] or unsupported; every other credential leaves a
    policy built over that very credential. *)
Theorem no_credential_policy_iff_none_or_unsupported (env : environment)
    (credential : value) (kw : kwargs) (self : client) :
  (_credential_policy (_create_pipeline env credential kw self).2 = None
   ↔ credential = VNone ∨ unsupported_credential credential = true)
  ∧ (∀ p, _credential_policy (_create_pipeline env credential kw self).2
          = Some p →
          p = AsyncBearerTokenCredentialPolicy credential
                (STORAGE_OAUTH_SCOPE env)
          ∨ p = SharedKeyCredentialPolicy credential
          ∨ p = AzureSasCredentialPolicy credential).
Proof.
  rewrite create_pipeline_state. simpl.
  split; [split|].
  - intros Hnone. destruct credential as [| | | | |o]; [by left|right..];
      try reflexivity.
    unfold resolved_credential_policy in Hnone. unfold unsupported_credential.
    destruct (hasattr (VObject o) "get_token"); [discriminate|].
    destruct (isinstance (VObject o) "SharedKeyCredentialPolicy");
      [discriminate|].
    destruct (isinstance (VObject o) "AzureSasCredential"); [discriminate|].
    reflexivity.
  - intros [->|Hbad]; [reflexivity|]. by classify_credential credential.
  - intros p Hp. unfold resolved_credential_policy in Hp.
    destruct (hasattr credential "get_token");
      [|destruct (isinstance credential "SharedKeyCredentialPolicy");
        [|destruct (isinstance credential "AzureSasCredential")]];
      inversion Hp; auto.
Qed.

(** ** The chain and the transport of the built pipeline *)

Lemma configuration_usable_setattr (config : configuration_object) :
  configuration_usable config = true →
  config_setattr config "transport" = Return ().
Proof. by destruct config as [[]|]. Qed.

Lemma configuration_usable_getattr (config : configuration_object)
    (name : string) (attribute : configuration_object → policy) :
  configuration_usable config = true →
  name ∈ policy_attributes →
  config_getattr config name attribute = Return (attribute config).
Proof.
  intros Husable Hname. destruct config as [v|kw0]; [|reflexivity].
  destruct v as [| | | | |o]; try discriminate Husable.
  unfold configuration_usable in Husable. unfold config_getattr.
  rewrite forallb_forall in Husable.
  apply list_elem_of_In, Husable, bool_decide_eq_true in Hname.
  by rewrite bool_decide_eq_true_2.
Qed.

Lemma with_additional_appended (env : environment) (kw : kwargs)
    (policies chain : policy_chain) :
  hasattr (kwargs_get "_additional_pipeline_policies" kw) "__radd__" = false →
  with_additional env kw policies = Return chain →
  ∃ additional,
    chain = (policies ++ ((λ o, Some (SuppliedPolicy o)) <$> additional))%list.
Proof.
  unfold with_additional, list_add, hasattr. intros Hreflected.
  destruct (truthy (kwargs_get "_additional_pipeline_policies" kw)).
  - destruct (kwargs_get "_additional_pipeline_policies" kw)
      as [| | | |l|o]; try discriminate.
    + intros [= <-]. by exists l.
    + by rewrite Hreflected.
  - intros [= <-]. exists []. by rewrite app_nil_r.
Qed.

Lemma body_bad_additional (env : environment) (kw : kwargs)
    (hosts : gmap string string) (cred : option credential_policy)
    (config : configuration_object) :
  configuration_for env kw = Return config →
  configuration_usable config = true →
  truthy (kwargs_get "_pipeline" kw) = false →
  truthy (kwargs_get "transport" kw) = true
    ∨ AioHttpTransport_importable env = true →
  kw !! "hosts" = None →
  truthy (kwargs_get "_additional_pipeline_policies" kw) = true →
  (∀ l, kwargs_get "_additional_pipeline_policies" kw ≠ VList l) →
  hasattr (kwargs_get "_additional_pipeline_policies" kw) "__radd__" = false →
  _create_pipeline_body env kw hosts cred
  = Raise (TypeError
       ("can only concatenate list (not " +:+ dquote
        +:+ type_name (kwargs_get "_additional_pipeline_policies" kw)
        +:+ dquote +:+ ") to list")).
Proof.
  intros Hconfig Husable Hpipeline Htransport Hhosts Htruthy Hlist Hreflected.
  unfold _create_pipeline_body. fold (with_timeouts env kw).
  rewrite Hconfig. simpl. rewrite Hpipeline.
  rewrite (configuration_usable_setattr config Husable). simpl.
  rewrite !(configuration_usable_getattr config) by
    (done || (unfold policy_attributes;
              repeat first [apply list_elem_of_here
                           |apply list_elem_of_further])).
  unfold new_StorageHosts. rewrite with_timeouts_other, Hhosts by done.
  rewrite kwargs_get_with_timeouts, Htruthy by done.
  assert (∀ policies,
            list_add env policies
              (kwargs_get "_additional_pipeline_policies" kw)
            = Raise (TypeError
                ("can only concatenate list (not " +:+ dquote
                 +:+ type_name (kwargs_get "_additional_pipeline_policies" kw)
                 +:+ dquote +:+ ") to list"))) as Hadd.
  { intros policies. unfold list_add, hasattr in *.
    destruct (kwargs_get "_additional_pipeline_policies" kw)
      as [| | | |l|o]; try reflexivity.
    - by destruct (Hlist l).
    - by rewrite Hreflected. }
  destruct (truthy (kwargs_get "transport" kw)); simpl.
  - by rewrite Hadd.
  - destruct Htransport as [|Himport]; [done|]. rewrite Himport. simpl.
    by rewrite Hadd.
Qed.

(** X14: when a pipeline would otherwise be built (a supported credential,
    a usable configuration, no truthy [_pipeline], a transport at hand, no
    [hosts] key), a truthy [_additional_pipeline_policies] that is neither
    a list nor an object defining [__radd__] (a single policy object, a
    string, a number) makes the call fail with the [TypeError] of the list
    concatenation, after the credential policy has been assigned. *)
Theorem additional_policies_must_be_a_list (env : environment)
    (credential : value) (kw : kwargs) (self : client)
    (config : configuration_object) :
  unsupported_credential credential = false →
  configuration_for env kw = Return config →
  configuration_usable config = true →
  truthy (kwargs_get "_pipeline" kw) = false →
  truthy (kwargs_get "transport" kw) = true
    ∨ AioHttpTransport_importable env = true →
  kw !! "hosts" = None →
  truthy (kwargs_get "_additional_pipeline_policies" kw) = true →
  (∀ l, kwargs_get "_additional_pipeline_policies" kw ≠ VList l) →
  hasattr (kwargs_get "_additional_pipeline_policies" kw) "__radd__" = false →
  (_create_pipeline env credential kw self).1
    = Raise (TypeError
        ("can only concatenate list (not " +:+ dquote
         +:+ type_name (kwargs_get "_additional_pipeline_policies" kw)
         +:+ dquote +:+ ") to list"))
  ∧ _credential_policy (_create_pipeline env credential kw self).2
    = resolved_credential_policy env credential.
Proof.
  intros Hgood Hconfig Husable Hpipeline Htransport Hhosts Htruthy Hlist
    Hreflected.
  rewrite create_pipeline_run, Hgood. simpl. split; [|reflexivity].
  by apply (body_bad_additional env kw _ _ config).
Qed.

Lemma additional_policies_witness :
  (_create_pipeline (sample_environment true) token_credential
     single_policy_kwargs sample_client).1
  = Raise (TypeError
      ("can only concatenate list (not " +:+ dquote +:+ "SansIOHTTPPolicy"
       +:+ dquote +:+ ") to list")).
Proof.
  refine (proj1 (additional_policies_must_be_a_list (sample_environment true)
                   token_credential single_policy_kwargs sample_client
                   (create_configuration single_policy_kwargs)
                   _ _ _ _ _ _ _ _ _)).
  - reflexivity.
  - reflexivity.
  - reflexivity.
  - reflexivity.
  - right. reflexivity.
  - reflexivity.
  - reflexivity.
  - intros l. discriminate.
  - reflexivity.
Defined.

(** X4: when [_create_pipeline] builds the default transport (no truthy
    [_pipeline], no truthy [transport]) and returns, the transport and the
    six policies constructed from the keyword arguments (request hook,
    redirect, hosts, response hook, tracing, HTTP logging) all receive the
    same keyword arguments, in which [connection_timeout] and
    [read_timeout] hold the caller's value when the key was passed and the
    constant otherwise, every other key being as passed; a configuration
    that line 80 creates is made from the keyword arguments as passed,
    before the defaults are set. *)
Theorem default_transport_gets_timeout_defaults (env : environment)
    (credential : value) (kw : kwargs) (self : client)
    (cfg : Configuration) (p : pipeline) :
  (_create_pipeline env credential kw self).1 = Return (cfg, p) →
  truthy (kwargs_get "_pipeline" kw) = false →
  truthy (kwargs_get "transport" kw) = false →
  hasattr (kwargs_get "_additional_pipeline_policies" kw) "__radd__" = false →
  ∃ kw' chain,
    p = AsyncPipeline (AioHttpTransport kw') chain
    ∧ config_transport cfg = Some (AioHttpTransport kw')
    ∧ chain !! 5%nat = Some (Some (StorageRequestHook kw'))
    ∧ chain !! 8%nat = Some (Some (AsyncRedirectPolicy kw'))
    ∧ chain !! 9%nat = Some (Some (StorageHosts (_hosts self) kw'))
    ∧ chain !! 12%nat = Some (Some (AsyncStorageResponseHook kw'))
    ∧ chain !! 13%nat = Some (Some (DistributedTracingPolicy kw'))
    ∧ chain !! 14%nat = Some (Some (HttpLoggingPolicy kw'))
    ∧ kw' !! "connection_timeout"
      = Some (default (VInt (CONNECTION_TIMEOUT env))
                (kw !! "connection_timeout"))
    ∧ kw' !! "read_timeout"
      = Some (default (VInt (READ_TIMEOUT env)) (kw !! "read_timeout"))
    ∧ (∀ k, k ≠ "connection_timeout" → k ≠ "read_timeout" →
            kw' !! k = kw !! k)
    ∧ (truthy (kwargs_get "_configuration" kw) = false →
       config_object cfg = create_configuration kw).
Proof.
  intros Hreturn Hpipeline Htransport Hreflected.
  rewrite create_pipeline_run in Hreturn. simpl in Hreturn.
  destruct (unsupported_credential credential); [discriminate|].
  destruct p as [v|t chain].
  { apply body_supplied_inv in Hreturn. congruence. }
  apply body_built_inv in Hreturn
    as (config & Hconfig & _ & -> & -> & _ & Hchain).
  apply with_additional_appended in Hchain as [additional ->]; [|done].
  unfold chosen_transport. rewrite Htransport.
  exists (with_timeouts env kw). eexists. split; [reflexivity|].
  split; [reflexivity|]. do 6 (split; [reflexivity|]).
  split; [apply with_timeouts_connection|].
  split; [apply with_timeouts_read|].
  split; [apply with_timeouts_other|].
  intros Hcreated. unfold configuration_for in Hconfig.
  rewrite Hcreated in Hconfig. simpl.
  destruct (create_configuration_raises env kw); [discriminate|].
  by injection Hconfig as <-.
Qed.

Lemma default_transport_timeouts_witness :
  ∃ cfg kw' chain,
    (_create_pipeline (sample_environment true) token_credential
       short_timeout sample_client).1
    = Return (cfg, AsyncPipeline (AioHttpTransport kw') chain)
    ∧ chain !! 14%nat = Some (Some (HttpLoggingPolicy kw'))
    ∧ kw' !! "connection_timeout" = Some (VInt 5)
    ∧ kw' !! "read_timeout" = Some (VInt 80000).
Proof.
  assert ((_create_pipeline (sample_environment true) token_credential
             short_timeout sample_client).1
          = Return
              ({| config_object := create_configuration short_timeout;
                  config_transport :=
                    Some (AioHttpTransport
                            (with_timeouts (sample_environment true)
                               short_timeout)) |},
               AsyncPipeline
                 (AioHttpTransport
                    (with_timeouts (sample_environment true) short_timeout))
                 (builtin_chain (create_configuration short_timeout)
                    (with_timeouts (sample_environment true) short_timeout)
                    (_hosts sample_client)
                    (Some (AsyncBearerTokenCredentialPolicy token_credential
                             "https://storage.azure.com/.default")))))
    as Hreturn by reflexivity.
  destruct (default_transport_gets_timeout_defaults (sample_environment true)
              token_credential short_timeout sample_client _ _
              Hreturn eq_refl eq_refl eq_refl)
    as (kw' & chain & Hp & _ & _ & _ & _ & _ & _ & Hlogging & Hconn & Hread
        & _).
  eexists _, kw', chain. rewrite Hreturn, Hp.
  split; [reflexivity|]. split; [exact Hlogging|].
  split; [exact Hconn|exact Hread].
Defined.

(** X5: with a truthy [transport] keyword argument the import of the
    default transport is never attempted: [_create_pipeline] does the same
    whether or not the import would succeed, and a pipeline it builds is
    over the supplied transport. *)
Theorem supplied_transport_needs_no_import (env : environment)
    (importable : bool) (credential : value) (kw : kwargs) (self : client) :
  truthy (kwargs_get "transport" kw) = true →
  _create_pipeline (with_importable env importable) credential kw self
    = _create_pipeline env credential kw self
  ∧ (∀ config t chain,
       (_create_pipeline env credential kw self).1
         = Return (config, AsyncPipeline t chain) →
       t = SuppliedTransport (kwargs_get "transport" kw)).
Proof.
  intros Htransport. split.
  - rewrite !create_pipeline_run.
    assert (_create_pipeline_body (with_importable env importable) kw
              (_hosts self) (resolved_credential_policy env credential)
            = _create_pipeline_body env kw (_hosts self)
                (resolved_credential_policy env credential)) as Hbody.
    { unfold _create_pipeline_body, configuration_for, list_add. simpl.
      by rewrite Htransport. }
    unfold resolved_credential_policy at 1 3. simpl.
    fold (resolved_credential_policy env credential). by rewrite Hbody.
  - intros config t chain Hreturn.
    rewrite create_pipeline_run in Hreturn. simpl in Hreturn.
    destruct (unsupported_credential credential); [discriminate|].
    apply body_built_inv in Hreturn as (_ & _ & _ & _ & -> & _).
    unfold chosen_transport. by rewrite Htransport.
Qed.

Lemma supplied_transport_witness :
  _create_pipeline (with_importable (sample_environment true) false)
    token_credential own_transport_kwargs sample_client
  = _create_pipeline (sample_environment true) token_credential
      own_transport_kwargs sample_client.
Proof.
  refine (proj1 (supplied_transport_needs_no_import (sample_environment true)
                   false token_credential own_transport_kwargs
                   sample_client _)).
  reflexivity.
Defined.

(** ** From the pipeline to the batch *)

(** X6: on the client as a successful build leaves it (the additional
    policies not being an object that defines [__radd__]), the policies
    that [_batch_send] has applied to each part are the header policy
    followed by the seventh entry of the built chain, the credential policy
    of the pipeline itself, and by nothing when that entry is [None]. *)
Theorem batch_parts_share_the_pipeline_credential_policy
    `{C : BatchCollaborators} (env : environment)
    (credential : value) (kw : kwargs) (self self' : client)
    (config : Configuration) (t : transport) (chain : policy_chain)
    (reqs : list SubRequest) (batch_kw : kwargs) (request : HttpRequest) :
  _create_pipeline env credential kw self
    = (Return (config, AsyncPipeline t chain), self') →
  hasattr (kwargs_get "_additional_pipeline_policies" kw) "__radd__" = false →
  _batch_send_request self' reqs batch_kw = Return request →
  chain !! 6%nat = Some (CredentialPolicy <$> _credential_policy self')
  ∧ mm_policies <$> multipart_mixed_info request
    = Some (StorageHeadersPolicy
              :: match chain !! 6%nat with
                 | Some (Some p) => [p]
                 | _ => []
                 end).
Proof.
  intros Hcall Hreflected Hrequest.
  rewrite create_pipeline_run in Hcall. injection Hcall as Hbody <-.
  destruct (unsupported_credential credential); [discriminate|].
  apply body_built_inv in Hbody as (config0 & _ & _ & _ & _ & _ & Hchain).
  apply with_additional_appended in Hchain as [additional ->]; [|done].
  apply batch_request_returned in Hrequest as (posted & _ & ->).
  unfold reduced_policies. simpl.
  by destruct (resolved_credential_policy env credential).
Qed.

Lemma batch_parts_share_witness :
  ∃ request,
    @_batch_send_request (sample_collaborators 202 [])
      (_create_pipeline (sample_environment true) shared_key_credential
         sdk_kwargs sample_client).2 [] ∅
    = Return request
    ∧ mm_policies <$> multipart_mixed_info request
      = Some [StorageHeadersPolicy;
              CredentialPolicy (SharedKeyCredentialPolicy shared_key_credential)].
Proof.
  assert (_create_pipeline (sample_environment true) shared_key_credential
            sdk_kwargs sample_client
          = (Return
               ({| config_object := create_configuration sdk_kwargs;
                   config_transport :=
                     Some (chosen_transport (sample_environment true)
                             sdk_kwargs) |},
                AsyncPipeline
                  (chosen_transport (sample_environment true) sdk_kwargs)
                  (builtin_chain (create_configuration sdk_kwargs)
                     (with_timeouts (sample_environment true) sdk_kwargs)
                     (_hosts sample_client)
                     (Some (SharedKeyCredentialPolicy shared_key_credential)))),
             set_credential_policy
               (Some (SharedKeyCredentialPolicy shared_key_credential))
               sample_client))
    as Hcall by reflexivity.
  eexists. split; [reflexivity|].
  refine (proj2 (@batch_parts_share_the_pipeline_credential_policy
                   (sample_collaborators 202 []) (sample_environment true)
                   shared_key_credential sdk_kwargs sample_client _ _ _ _ []
                   (∅ : kwargs) _ Hcall _ _)); reflexivity.
Defined.

(** ** What the batch call passes on *)


(** X8: an exception raised by the pipeline run leaves [_batch_send] as it
    is, an [HttpResponseError] included: the run is outside the [try]
    block, so the decoder and the multipart reader are not consulted. *)
Theorem pipeline_run_errors_are_not_decoded `{C : BatchCollaborators}
    (self : client) (reqs : list SubRequest) (kw : kwargs)
    (request : HttpRequest) (e : exception) :
  _batch_send_request self reqs kw = Return request →
  run (_pipeline self) request (run_kwargs (_batch_send_arguments self kw))
    = Raise e →
  _batch_send self reqs kw = Raise e
  ∧ (∀ reader decoder derives,
       @_batch_send {| post := @post C; run := @run C; parts := reader;
                       process_storage_error := decoder;
                       PartialBatchErrorException_is_HttpResponseError :=
                         derives |} self reqs kw
       = Raise e).
Proof.
  intros Hrequest Hrun. split.
  - unfold _batch_send. rewrite Hrequest.
    unfold mbind at 1, result_bind at 1. by rewrite Hrun.
  - intros reader decoder derives. unfold _batch_send.
    change (@_batch_send_request _ self reqs kw)
      with (@_batch_send_request C self reqs kw).
    rewrite Hrequest. unfold mbind at 1, result_bind at 1. cbn [run].
    by rewrite Hrun.
Qed.

Lemma pipeline_run_errors_witness :
  @_batch_send
    (failing_collaborators (HttpResponseError (top_response 403)))
    sample_client [] ∅
  = Raise (HttpResponseError (top_response 403)).
Proof.
  refine (proj1 (@pipeline_run_errors_are_not_decoded
                   (failing_collaborators (HttpResponseError (top_response 403)))
                   sample_client [] (∅ : kwargs) _ _ _ _)).
  - reflexivity.
  - reflexivity.
Defined.

(** X9: the two modes deliver the same parts.  For a batch whose top-level
    response has status 202 and whose parts all have a status in
    [200, 300), the call without the flag returns the list that consuming
    the iterator returned by the call with [raise_on_any_failure=False]
    yields. *)
Theorem lazy_and_eager_deliver_the_same_parts `{C : BatchCollaborators}
    (self : client) (reqs : list SubRequest) (kw : kwargs)
    (request : HttpRequest) (response : HttpResponse) :
  kw !! "raise_on_any_failure" = None →
  _batch_send_request self reqs kw = Return request →
  run (_pipeline self) request (run_kwargs (_batch_send_arguments self kw))
    = Return response →
  status_code response = 202 →
  (∀ p, p ∈ pending (parts response) → part_ok p) →
  ∃ it,
    _batch_send self reqs (<["raise_on_any_failure" := VBool false]> kw)
      = Return (Parts it)
    ∧ _batch_send self reqs kw
      = Return (AsyncList (consume (S (length (pending it))) it)).
Proof.
  intros Hnone Hrequest Hrun Hstatus Hok. exists (parts response). split.
  - unfold _batch_send.
    assert (_batch_send_request self reqs
              (<["raise_on_any_failure" := VBool false]> kw)
            = Return request) as ->.
    { unfold _batch_send_request in *.
      by rewrite batch_arguments_with_flag. }
    rewrite batch_arguments_with_flag.
    unfold mbind at 1, result_bind at 1. cbn [run_kwargs raise_on_any_failure].
    rewrite Hrun. simpl. unfold _batch_send_response. by rewrite Hstatus.
  - rewrite consume_all.
    rewrite (response_202_eager self reqs kw request response Hrequest Hrun
               Hstatus) by (by rewrite Hnone).
    apply any_failed_part_false in Hok. by rewrite Hok.
Qed.

Lemma lazy_and_eager_witness :
  ∃ it,
    @_batch_send (sample_collaborators 202 [200; 201; 204]) sample_client []
      {[ "raise_on_any_failure" := VBool false ]}
      = Return (Parts it)
    ∧ @_batch_send (sample_collaborators 202 [200; 201; 204]) sample_client
        [] ∅
      = Return (AsyncList (consume (S (length (pending it))) it)).
Proof.
  refine (@lazy_and_eager_deliver_the_same_parts
            (sample_collaborators 202 [200; 201; 204]) sample_client []
            (∅ : kwargs) _ (top_response 202) _ _ _ _ _).
  - reflexivity.
  - reflexivity.
  - reflexivity.
  - reflexivity.
  - intros p Hin. simpl in Hin. unfold part_ok.
    repeat (apply elem_of_cons in Hin as [Hp|Hin];
            [rewrite Hp; simpl; lia|]).
    by apply elem_of_nil in Hin.
Defined.

(** X10: in eager mode a batch with a part outside [200, 300) never comes
    back as a result holding parts, whatever the decoder does: the call
    raises, or returns [None] when the decoder returns. *)
Theorem failed_part_is_never_returned `{C : BatchCollaborators}
    (self : client) (reqs : list SubRequest) (kw : kwargs)
    (request : HttpRequest) (response : HttpResponse)
    (failed : HttpResponse) :
  truthy (default (VBool true) (kw !! "raise_on_any_failure")) = true →
  _batch_send_request self reqs kw = Return request →
  run (_pipeline self) request (run_kwargs (_batch_send_arguments self kw))
    = Return response →
  status_code response = 202 →
  failed ∈ pending (parts response) →
  ¬ part_ok failed →
  (∃ e, _batch_send self reqs kw = Raise e)
  ∨ _batch_send self reqs kw = Return ReturnedNone.
Proof.
  intros Hflag Hrequest Hrun Hstatus Hin Hbad.
  rewrite (response_202_eager self reqs kw request response Hrequest Hrun
             Hstatus Hflag).
  assert (any_failed_part (pending (parts response)) = true) as ->
    by (apply any_failed_part_true; eauto).
  simpl. destruct PartialBatchErrorException_is_HttpResponseError.
  - destruct (process_storage_error _) as [[]|e]; simpl; eauto.
  - eauto.
Qed.

Lemma failed_part_witness :
  @_batch_send (silent_collaborators 202 [200; 500]) sample_client [] ∅
  = Return ReturnedNone.
Proof.
  assert (¬ part_ok (part 500)) as Hbad by (unfold part_ok; simpl; lia).
  assert (part 500
          ∈ pending (@parts (silent_collaborators 202 [200; 500])
                       (top_response 202))) as Hin
    by apply list_elem_of_further, list_elem_of_here.
  assert (truthy (default (VBool true)
                    ((∅ : kwargs) !! "raise_on_any_failure")) = true)
    as Hflag by reflexivity.
  destruct (@failed_part_is_never_returned
              (silent_collaborators 202 [200; 500]) sample_client []
              (∅ : kwargs) _ (top_response 202) (part 500)
              Hflag eq_refl eq_refl eq_refl Hin Hbad)
    as [[e He]|Hnone].
  - discriminate He.
  - exact Hnone.
Defined.



(** X12: a 202 response without parts is a success in eager mode: the call
    returns the empty list, whatever the decoder would do. *)
Theorem empty_batch_returns_empty_list `{C : BatchCollaborators}
    (self : client) (reqs : list SubRequest) (kw : kwargs)
    (request : HttpRequest) (response : HttpResponse) :
  truthy (default (VBool true) (kw !! "raise_on_any_failure")) = true →
  _batch_send_request self reqs kw = Return request →
  run (_pipeline self) request (run_kwargs (_batch_send_arguments self kw))
    = Return response →
  status_code response = 202 →
  pending (parts response) = [] →
  _batch_send self reqs kw = Return (AsyncList []).
Proof.
  intros Hflag Hrequest Hrun Hstatus Hempty.
  rewrite (response_202_eager self reqs kw request response Hrequest Hrun
             Hstatus Hflag).
  by rewrite Hempty.
Qed.

Lemma empty_batch_witness :
  @_batch_send (silent_collaborators 202 []) sample_client [] ∅
  = Return (AsyncList []).
Proof.
  refine (@empty_batch_returns_empty_list (silent_collaborators 202 [])
            sample_client [] (∅ : kwargs) _ (top_response 202) _ _ _ _ _);
    reflexivity.
Defined.

(** ** Any use of the wrapper *)

Lemma call_on_wrapper {T S : Type} `{AsyncHttpTransport T S} (inner : T)
    (c : transport_call) (s : S) :
  call {| _transport := inner |} c s
  = if is_send c then call inner c s else (Return None, s).
Proof. by destruct c. Qed.

(** X13: whatever sequence of [send], [open], [close], [__aenter__] and
    [__aexit__] is made on a wrapper, the store ends as if only the
    [send] calls had been made on the wrapped transport, each [send] has
    the outcome it has there, and every other call returns. *)
Theorem wrapper_calls_amount_to_the_sends {T S : Type}
    `{AsyncHttpTransport T S} (inner : T) (calls : list transport_call)
    (s : S) :
  let wrapper := {| _transport := inner |} in
  (run_calls wrapper calls s).2
    = (run_calls inner (List.filter is_send calls) s).2
  ∧ List.filter (λ seen_call, is_send seen_call.1) (run_calls wrapper calls s).1
    = (run_calls inner (List.filter is_send calls) s).1
  ∧ Forall (λ seen_call, is_send seen_call.1 = false → seen_call.2 = Return None)
      (run_calls wrapper calls s).1.
Proof.
  intros wrapper. subst wrapper. revert s.
  induction calls as [|c rest IH]; intros s.
  - repeat split. constructor.
  - simpl run_calls. rewrite call_on_wrapper. simpl List.filter.
    destruct (is_send c) eqn:Hsend.
    + simpl run_calls. destruct (call inner c s) as [seen_now s'].
      destruct (IH s') as (Hstore & Hseen & Hrest).
      destruct (run_calls {| _transport := inner |} rest s')
        as [seen_later s''].
      destruct (run_calls inner (List.filter is_send rest) s')
        as [seen_inner s_inner].
      simpl in *. rewrite Hsend. subst. repeat split.
      constructor; [simpl; congruence|done].
    + destruct (IH s) as (Hstore & Hseen & Hrest).
      destruct (run_calls {| _transport := inner |} rest s)
        as [seen_later s''].
      simpl in *. rewrite Hsend. repeat split; [done|done|].
      constructor; [done|done].
Qed.

(** On the session transport: after opening, sending, closing and leaving
    the wrapper the session is still open and one exchange was made. *)
Example wrapper_script_on_session (request : HttpRequest) :
  (run_calls {| _transport := TheSessionTransport |}
     [CallEnter; CallSend request ∅; CallClose; CallExit]
     {| session_open := true; exchanges := 0 |}).2
  = {| session_open := true; exchanges := 1 |}.
Proof. reflexivity. Qed.
